(** * The AI planning monitor (monitor-ai-planning.py)

    A shallow embedding of [AITestMonitor] and [main]: the decoded JSON
    values the monitor receives, the Python operations it applies to them
    (with the exceptions they raise), the monitor object as an explicit
    state, the console and the file system as an effect log, and the
    receive loop driven by a script of what [websocket.recv()] yields.

    Outside the model: the text rich renders (the values formatted into
    an f-string are kept instead, and so is a string that is upper-cased),
    failures of [open] and [json.dump] in
    [display_summary] and of [websocket.send] once connected (taken to
    succeed), and the order in which the two tasks of [main] interleave
    beyond what the monitor object can observe. *)

From Stdlib Require Import ZArith QArith_base List String Ascii Bool Lia.
Import ListNotations.
Local Open Scope string_scope.
Local Open Scope list_scope.
Local Open Scope Z_scope.
Set Warnings "-register-all".

(** ** Decoded JSON values *)

(** A Python float as [json.loads] can produce it (it accepts [NaN] and
    [Infinity] as well as finite literals). *)
Inductive pyfloat : Type :=
| FFinite (q : Q)
| FNaN
| FInf (negative : bool).

(** The result of [json.loads]: [None], [bool], [int], [float], [str],
    [list] and [dict].  A [str] is kept as the bytes of its UTF-8
    encoding.  A [dict] is kept as the ordered list of its items;
    [lookup] returns the first binding of a key. *)
Inductive json : Type :=
| JNull
| JBool (b : bool)
| JInt (z : Z)
| JFloat (f : pyfloat)
| JStr (s : string)
| JArr (items : list json)
| JObj (fields : list (string * json)).

(** ** Exceptions *)

(** The exception classes that occur.  [KeyboardInterrupt] derives from
    [BaseException] only; every other class is an [Exception]. *)
Inductive exn : Type :=
| KeyboardInterrupt
| TimeoutError            (* asyncio.TimeoutError *)
| ConnectionClosed        (* websockets.ConnectionClosed *)
| AttributeError
| TypeError
| ValueError
| OverflowError
| KeyError
| IndexError
| JSONDecodeError
| OSError
| ClientError             (* aiohttp.ClientError *)
| RichError.              (* any error raised inside rich *)

Definition is_Exception (e : exn) : bool :=
  match e with
  | KeyboardInterrupt => false
  | _ => true
  end.

Inductive result (A : Type) : Type :=
| Ok (a : A)
| Raise (e : exn).
Arguments Ok {A} a.
Arguments Raise {A} e.

Definition rbind {A B} (r : result A) (k : A -> result B) : result B :=
  match r with
  | Ok a => k a
  | Raise e => Raise e
  end.

Notation "'let?' x := c 'in' k" := (rbind c (fun x => k))
  (at level 10, x name, c at level 100, k at level 200).

(** ** Python operations on decoded values *)

Module Py.

Fixpoint lookup (k : string) (fields : list (string * json)) : option json :=
  match fields with
  | [] => None
  | (k', v) :: rest => if (k' =? k)%string then Some v else lookup k rest
  end.

(** [d.get(k, default)]: only a [dict] has the method. *)
Definition get (d : json) (k : string) (default : json) : result json :=
  match d with
  | JObj fields =>
      Ok (match lookup k fields with Some v => v | None => default end)
  | _ => Raise AttributeError
  end.

Definition float_is_zero (f : pyfloat) : bool :=
  match f with
  | FFinite q => (Qnum q =? 0)%Z
  | _ => false
  end.

(** Truth value of an object, as [if x], [not x] and [x or y] test it. *)
Definition truthy (v : json) : bool :=
  match v with
  | JNull => false
  | JBool b => b
  | JInt z => negb (z =? 0)%Z
  | JFloat f => negb (float_is_zero f)
  | JStr s => negb (s =? "")%string
  | JArr items => match items with [] => false | _ => true end
  | JObj fields => match fields with [] => false | _ => true end
  end.

(** [x or y] where [y] is only evaluated when [x] is falsy. *)
Definition or_else (x : json) (y : result json) : result json :=
  if truthy x then Ok x else y.

(** [v == s] for a string literal [s]. *)
Definition eq_str (v : json) (s : string) : bool :=
  match v with
  | JStr s' => (s' =? s)%string
  | _ => false
  end.

(** Whether a byte continues a character of a UTF-8 string (it is of
    the form 10xxxxxx); every other byte starts one. *)
Definition is_continuation (c : ascii) : bool :=
  let n := nat_of_ascii c in (128 <=? n)%nat && (n <? 192)%nat.

(** [len(s)]: the number of characters. *)
Fixpoint len (s : string) : nat :=
  match s with
  | EmptyString => O
  | String c rest => if is_continuation c then len rest else S (len rest)
  end.

(** [s[:n]]: the first [n] characters, that is the bytes before the one
    that starts character [n + 1]. *)
Fixpoint take_chars (n : nat) (s : string) : string :=
  match s with
  | EmptyString => EmptyString
  | String c rest =>
      if is_continuation c then String c (take_chars n rest)
      else
        match n with
        | O => EmptyString
        | S n' => String c (take_chars n' rest)
        end
  end.

(** Whether a run of bytes begins with a continuation byte. *)
Definition continues (s : string) : bool :=
  match s with
  | String c _ => is_continuation c
  | EmptyString => false
  end.

(** The characters of a string, each with the bytes that continue it. *)
Fixpoint split_chars (s : string) : list string :=
  match s with
  | EmptyString => []
  | String c rest =>
      match split_chars rest with
      | ch :: more =>
          if continues ch then String c ch :: more
          else String c EmptyString :: ch :: more
      | [] => [String c EmptyString]
      end
  end.

Definition chars (s : string) : list json := map JStr (split_chars s).

(** The items a [for] loop (or [enumerate]) draws from an object. *)
Definition iter (v : json) : result (list json) :=
  match v with
  | JArr items => Ok items
  | JObj fields => Ok (map (fun kv => JStr (fst kv)) fields)
  | JStr s => Ok (chars s)
  | _ => Raise TypeError
  end.

Definition is_substring (needle s : string) : bool :=
  match String.index 0 needle s with
  | Some _ => true
  | None => false
  end.

(** [k in v] for a string literal [k]. *)
Definition contains (k : string) (v : json) : result bool :=
  match v with
  | JObj fields =>
      Ok (match lookup k fields with Some _ => true | None => false end)
  | JArr items => Ok (existsb (fun x => eq_str x k) items)
  | JStr s => Ok (is_substring k s)
  | _ => Raise TypeError
  end.

(** [v[k]] for a string literal [k]. *)
Definition getitem (v : json) (k : string) : result json :=
  match v with
  | JObj fields =>
      match lookup k fields with
      | Some x => Ok x
      | None => Raise KeyError
      end
  | _ => Raise TypeError
  end.

(** [v[0]]. *)
Definition first (v : json) : result json :=
  match v with
  | JArr (x :: _) => Ok x
  | JArr [] => Raise IndexError
  | JStr s =>
      match split_chars s with
      | ch :: _ => Ok (JStr ch)
      | [] => Raise IndexError
      end
  | JObj _ => Raise KeyError
  | _ => Raise TypeError
  end.

(** [v[:n]]; slicing a [dict] fails too (with [TypeError], or [KeyError]
    from Python 3.12 on: an exception either way). *)
Definition slice_to (n : nat) (v : json) : result json :=
  match v with
  | JStr s => Ok (JStr (take_chars n s))
  | JArr items => Ok (JArr (firstn n items))
  | _ => Raise TypeError
  end.

(** The value of [s.upper()].  The upper-casing follows Unicode's case
    mapping and is not computed: the string it applies to is kept. *)
Inductive uppercased : Type :=
| Upper (s : string).

(** [v.upper()]: only a [str] has the method. *)
Definition upper (v : json) : result uppercased :=
  match v with
  | JStr s => Ok (Upper s)
  | _ => Raise AttributeError
  end.

(** Whether an object can be a dictionary key. *)
Definition hashable (v : json) : bool :=
  match v with
  | JArr _ | JObj _ => false
  | _ => true
  end.

(** [table.get(key, default)] on a literal [dict] with string keys and
    string values. *)
Definition table_get (table : list (string * string)) (key : json)
    (default : string) : result string :=
  if negb (hashable key) then Raise TypeError
  else
    Ok (match key with
        | JStr s =>
            match find (fun kv => (fst kv =? s)%string) table with
            | Some kv => snd kv
            | None => default
            end
        | _ => default
        end).

(** The least magnitude at which [float(n)] overflows for an [int]: the
    first integer that rounds to [2^1024]. *)
Definition float_overflow : Z := 2 ^ 1024 - 2 ^ 970.
Arguments float_overflow : simpl never.

(** Whether a number converts to a float. *)
Definition fits_float (v : json) : bool :=
  match v with
  | JInt n => Z.abs n <? float_overflow
  | _ => true
  end.

(** [format(v, ".2%")]: defined on numbers and booleans only; an [int] is
    converted to a float first, which overflows when it is too large. *)
Definition format_percent (v : json) : result json :=
  match v with
  | JBool _ | JFloat _ => Ok v
  | JInt _ => if fits_float v then Ok v else Raise OverflowError
  | JStr _ => Raise ValueError
  | _ => Raise TypeError
  end.

End Py.

(** ** Console output, files and the monitor object *)

(** A piece of an f-string: literal text, or a value formatted into it.
    The text a value formats to is not computed; the value is kept. *)
Inductive fpiece : Type :=
| Lit (s : string)
| Fmt (v : json)                  (* {v} *)
| FmtPercent (v : json)           (* {v:.2%} *)
| FmtUpper (u : Py.uppercased)    (* {s.upper()} *)
| FmtSeconds (microseconds : Z)   (* {duration:.2f} *)
| FmtExn (e : exn).               (* {e} *)

Definition fstring : Type := list fpiece.

(** What is handed to rich. *)
Inductive renderable : Type :=
| RStr (s : fstring)
| RValue (v : json)
| RText (text : json) (style : string)
| RPanel (body : renderable) (title : fstring) (border_style : string)
    (fit : bool)
| RTable (title : string) (columns : list string)
    (rows : list (list renderable)).

(** One entry of [ai_thoughts]; times are microseconds on the clock
    [datetime.now()] reads. *)
Record thought_entry : Type := {
  timestamp : Z;
  phase : json;
  thought : json
}.

(** The record [display_summary] dumps; [a_duration] is the [timedelta] in
    microseconds ([total_seconds()] divides it by 10^6). *)
Record artifact : Type := {
  a_workflowId : string;
  a_duration : Z;
  a_aiThoughts : list thought_entry;
  a_testPlan : json;
  a_findings : list json
}.

Inductive effect : Type :=
| ConsolePrint (r : renderable)                (* console.print *)
| FileWrite (name : string) (content : artifact) (* open(name, 'w'); json.dump *)
| WsSend (frame : json)                         (* websocket.send *)
| HttpPost (url : string) (body : json).        (* session.post *)

Record AITestMonitor : Type := {
  backend_url : string;
  ws_url : string;
  workflow_id : string;
  ai_thoughts : list thought_entry;
  test_plan : json;
  current_phase : fstring;
  findings : list json;
  start_time : option Z
}.

(** [AITestMonitor.__init__]; the fresh [uuid4] is an input. *)
Definition __init__ (backend ws uuid : string) : AITestMonitor :=
  {| backend_url := backend;
     ws_url := ws;
     workflow_id := uuid;
     ai_thoughts := [];
     test_plan := JNull;
     current_phase := [Lit "Initializing"];
     findings := [];
     start_time := None |}.

Definition set_ai_thoughts (l : list thought_entry) (m : AITestMonitor) :=
  {| backend_url := backend_url m; ws_url := ws_url m;
     workflow_id := workflow_id m; ai_thoughts := l;
     test_plan := test_plan m; current_phase := current_phase m;
     findings := findings m; start_time := start_time m |}.

Definition set_test_plan (p : json) (m : AITestMonitor) :=
  {| backend_url := backend_url m; ws_url := ws_url m;
     workflow_id := workflow_id m; ai_thoughts := ai_thoughts m;
     test_plan := p; current_phase := current_phase m;
     findings := findings m; start_time := start_time m |}.

Definition set_current_phase (p : fstring) (m : AITestMonitor) :=
  {| backend_url := backend_url m; ws_url := ws_url m;
     workflow_id := workflow_id m; ai_thoughts := ai_thoughts m;
     test_plan := test_plan m; current_phase := p;
     findings := findings m; start_time := start_time m |}.

Definition set_findings (l : list json) (m : AITestMonitor) :=
  {| backend_url := backend_url m; ws_url := ws_url m;
     workflow_id := workflow_id m; ai_thoughts := ai_thoughts m;
     test_plan := test_plan m; current_phase := current_phase m;
     findings := l; start_time := start_time m |}.

Definition set_start_time (t : option Z) (m : AITestMonitor) :=
  {| backend_url := backend_url m; ws_url := ws_url m;
     workflow_id := workflow_id m; ai_thoughts := ai_thoughts m;
     test_plan := test_plan m; current_phase := current_phase m;
     findings := findings m; start_time := t |}.

(** The monitor object together with everything the process has emitted,
    oldest first. *)
Record World : Type := {
  self : AITestMonitor;
  log : list effect
}.

(** ** The monad of the embedding

    A computation transforms the world and either returns or raises.  The
    world it leaves is kept in both cases: what Python mutated before an
    exception stays mutated. *)
Definition M (A : Type) : Type := World -> World * result A.

Definition ret {A} (a : A) : M A := fun w => (w, Ok a).

Definition raise {A} (e : exn) : M A := fun w => (w, Raise e).

Definition bind {A B} (c : M A) (k : A -> M B) : M B :=
  fun w =>
    match c w with
    | (w', Ok a) => k a w'
    | (w', Raise e) => (w', Raise e)
    end.

Definition lift {A} (r : result A) : M A := fun w => (w, r).

Definition get_self : M AITestMonitor := fun w => (w, Ok (self w)).

Definition modify_self (f : AITestMonitor -> AITestMonitor) : M unit :=
  fun w => ({| self := f (self w); log := log w |}, Ok tt).

Definition emit (e : effect) : M unit :=
  fun w => ({| self := self w; log := log w ++ [e] |}, Ok tt).

(** [try: c except <those e with catches e>: handler e]. *)
Definition try_except {A} (c : M A) (catches : exn -> bool)
    (handler : exn -> M A) : M A :=
  fun w =>
    match c w with
    | (w', Raise e) => if catches e then handler e w' else (w', Raise e)
    | r => r
    end.

Declare Scope monad_scope.
Delimit Scope monad_scope with monad.
Notation "x <- c ;; k" := (bind c (fun x => k))
  (at level 61, c at next level, right associativity) : monad_scope.
Notation "c ;; k" := (bind c (fun _ => k))
  (at level 61, right associativity) : monad_scope.
Local Open Scope monad_scope.

(** What rich does is not part of the repository.  Its three entry points
    that can reject their argument are taken as a parameter: each tells
    which exception, if any, the call raises. *)
Record Rich : Type := {
  Text_raises : json -> option exn;            (* Text(thought, style=...) *)
  add_row_raises : list renderable -> option exn;   (* table.add_row(...) *)
  print_raises : renderable -> option exn           (* console.print(...) *)
}.

(** A console that renders whatever it is given. *)
Definition rich_quiet : Rich :=
  {| Text_raises := fun _ => None;
     add_row_raises := fun _ => None;
     print_raises := fun _ => None |}.

Definition nl : string := String (ascii_of_nat 10) EmptyString.

(** ** The monitor's methods *)

Section Monitor.

Variable rich : Rich.

(** [console.print(r)]. *)
Definition console_print (r : renderable) : M unit :=
  match print_raises rich r with
  | Some e => raise e
  | None => emit (ConsolePrint r)
  end.

(** [Text(text, style=style)]. *)
Definition Text (text : json) (style : string) : M renderable :=
  match Text_raises rich text with
  | Some e => raise e
  | None => ret (RText text style)
  end.

(** [table.add_row(...)] on a table that has [rows] so far. *)
Definition add_row (rows : list (list renderable)) (row : list renderable)
  : M (list (list renderable)) :=
  match add_row_raises rich row with
  | Some e => raise e
  | None => ret (rows ++ [row])
  end.

(** [d.get(k, default)] with a string literal for default. *)
Definition get (d : json) (k : string) (default : string) : M json :=
  lift (Py.get d k (JStr default)).

Definition display_ai_thought (now : Z) (phase thought : json) : M unit :=
  modify_self (fun m =>
    set_ai_thoughts
      (ai_thoughts m ++
       [{| timestamp := now; phase := phase; thought := thought |}])
      m) ;;
  t <- Text thought "cyan" ;;
  console_print (RPanel t [Lit "🤖 AI Thinking - "; Fmt phase] "cyan" false).

Definition strategy_columns : list string := ["Phase"; "Action"; "Priority"].

(** The body of [for rec in strategy['recommendations']]. *)
Fixpoint strategy_rows (strategy : json) (recs : list json)
    (rows : list (list renderable)) : M (list (list renderable)) :=
  match recs with
  | [] => ret rows
  | rec :: rest =>
      ph <- get strategy "phase" "N/A" ;;
      tool <- get rec "tool" "Unknown" ;;
      purpose <- get rec "purpose" "" ;;
      priority <- get rec "priority" "medium" ;;
      rows' <- add_row rows
                 [RValue ph; RStr [Fmt tool; Lit ": "; Fmt purpose];
                  RValue priority] ;;
      strategy_rows strategy rest rows'
  end.

Definition display_strategy (msg : json) : M unit :=
  strategy <- lift (Py.get msg "strategy" (JObj [])) ;;
  reasoning <- get msg "reasoning" "No reasoning provided" ;;
  has <- lift (Py.contains "recommendations" strategy) ;;
  rows <- (if has : bool then
             recs <- lift (Py.getitem strategy "recommendations") ;;
             items <- lift (Py.iter recs) ;;
             strategy_rows strategy items []
           else ret []) ;;
  console_print (RTable "📋 AI Strategy" strategy_columns rows) ;;
  console_print (RPanel (RValue reasoning) [Lit "💭 Reasoning"] "blue" false).

Definition display_classification (msg : json) : M unit :=
  intent <- get msg "intent" "Unknown" ;;
  confidence <- lift (Py.get msg "confidence" (JInt 0)) ;;
  c <- lift (Py.format_percent confidence) ;;
  console_print
    (RPanel
       (RStr [Lit "Intent: [bold]"; Fmt intent; Lit "[/bold]"; Lit nl;
              Lit "Confidence: [yellow]"; FmtPercent c; Lit "[/yellow]"])
       [Lit "🎯 Intent Classification"] "green" false).

Definition plan_columns : list string := ["Step"; "Tool"; "Target"; "Purpose"].

(** The four arguments of [table.add_row] for step number [i]. *)
Definition plan_row (plan : json) (i : Z) (step : json)
  : result (list renderable) :=
  let? name := Py.get step "name" (JStr "Unknown") in
  let? tool := Py.get step "tool" name in
  let? plan_target := Py.get plan "target" (JStr "N/A") in
  let? target := Py.get step "target" plan_target in
  let? target30 := Py.slice_to 30 target in
  let? description := Py.get step "description" (JStr "N/A") in
  let? purpose := Py.get step "purpose" description in
  Ok [RStr [Fmt (JInt i)]; RValue tool; RValue target30; RValue purpose].

(** [for i, step in enumerate(steps, 1): table.add_row(...)]. *)
Fixpoint plan_rows (plan : json) (i : Z) (steps : list json)
    (rows : list (list renderable)) : M (list (list renderable)) :=
  match steps with
  | [] => ret rows
  | step :: rest =>
      row <- lift (plan_row plan i step) ;;
      rows' <- add_row rows row ;;
      plan_rows plan (i + 1) rest rows'
  end.

Definition first_step_panel (tool purpose priority : json) : renderable :=
  RPanel
    (RStr [Lit "[bold]First Action:[/bold] "; Fmt tool; Lit nl;
           Lit "[bold]Purpose:[/bold] "; Fmt purpose; Lit nl;
           Lit "[bold]Priority:[/bold] "; Fmt priority])
    [Lit "🎯 Initial Step Details"] "yellow" false.

Definition plan_table (rows : list (list renderable)) : renderable :=
  RTable "🗺️ Test Execution Plan" plan_columns rows.

Definition display_test_plan : M unit :=
  m <- get_self ;;
  let plan := test_plan m in
  if negb (Py.truthy plan) then ret tt
  else
    s <- lift (Py.get plan "steps" (JArr [])) ;;
    steps <- lift (Py.or_else s (Py.get plan "recommendations" (JArr []))) ;;
    items <- lift (Py.iter steps) ;;
    rows <- plan_rows plan 1 items [] ;;
    console_print (plan_table rows) ;;
    if Py.truthy steps then
      first_step <- lift (Py.first steps) ;;
      tool <- get first_step "tool" "Unknown" ;;
      purpose <- get first_step "purpose" "N/A" ;;
      priority <- get first_step "priority" "Not specified" ;;
      console_print (first_step_panel tool purpose priority)
    else ret tt.

Definition severity_colors : list (string * string) :=
  [("critical", "red"); ("high", "orange"); ("medium", "yellow");
   ("low", "blue"); ("info", "cyan")].

Definition finding_panel (type description impact : json)
    (color : string) (SEVERITY : Py.uppercased) : renderable :=
  RPanel
    (RStr [Lit "[bold]Type:[/bold] "; Fmt type; Lit nl;
           Lit "[bold]Description:[/bold] "; Fmt description; Lit nl;
           Lit "[bold]Impact:[/bold] "; Fmt impact])
    [Lit "🔍 Finding - ["; Lit color; Lit "]"; FmtUpper SEVERITY; Lit "[/";
     Lit color; Lit "]"]
    color false.

Definition display_finding (finding : json) : M unit :=
  severity <- get finding "severity" "info" ;;
  type <- get finding "type" "Unknown" ;;
  description <- get finding "description" "N/A" ;;
  impact <- get finding "impact" "N/A" ;;
  color <- lift (Py.table_get severity_colors severity "white") ;;
  SEVERITY <- lift (Py.upper severity) ;;
  console_print (finding_panel type description impact color SEVERITY).

Definition summary_panel (m : AITestMonitor) (duration : Z) : renderable :=
  RPanel
    (RStr [Lit "[bold]Workflow ID:[/bold] "; Lit (workflow_id m); Lit nl;
           Lit "[bold]Duration:[/bold] "; FmtSeconds duration;
           Lit " seconds"; Lit nl;
           Lit "[bold]AI Thoughts Captured:[/bold] ";
           Fmt (JInt (Z.of_nat (List.length (ai_thoughts m)))); Lit nl;
           Lit "[bold]Findings:[/bold] ";
           Fmt (JInt (Z.of_nat (List.length (findings m)))); Lit nl;
           Lit "[bold]Test Plan Generated:[/bold] ";
           Lit (if Py.truthy (test_plan m) then "Yes" else "No")])
    [Lit "📊 Summary"] "green" false.

Definition output_file (m : AITestMonitor) : string :=
  ("ai-analysis-" ++ workflow_id m ++ ".json")%string.

Definition summary_record (m : AITestMonitor) (duration : Z) : artifact :=
  {| a_workflowId := workflow_id m;
     a_duration := duration;
     a_aiThoughts := ai_thoughts m;
     a_testPlan := test_plan m;
     a_findings := findings m |}.

(** [(datetime.now() - self.start_time).total_seconds()
     if self.start_time else 0]: a [datetime] is always truthy, so the
    test is on [None]. *)
Definition duration_at (now : Z) (m : AITestMonitor) : Z :=
  match start_time m with
  | Some t => now - t
  | None => 0
  end.

(** [display_summary]; [now] is what [datetime.now()] reads. *)
Definition display_summary (now : Z) : M unit :=
  m <- get_self ;;
  let duration := duration_at now m in
  console_print (summary_panel m duration) ;;
  emit (FileWrite (output_file m) (summary_record m duration)) ;;
  console_print
    (RStr [Lit "[green]✅ Results saved to "; Lit (output_file m);
           Lit "[/green]"]).

(** [handle_message]; [now] is what [datetime.now()] reads during the
    call.  The value is Python's return value: [None], or [Some false]
    for the [return False] of the last branch. *)
Definition handle_message (now : Z) (msg : json) : M (option bool) :=
  msg_type <- get msg "type" "unknown" ;;
  if Py.eq_str msg_type "ai:thinking" then
    ph <- get msg "phase" "general" ;;
    content <- get msg "content" "" ;;
    display_ai_thought now ph content ;;
    ret None
  else if Py.eq_str msg_type "ai:strategy" then
    display_strategy msg ;; ret None
  else if Py.eq_str msg_type "ai:classification" then
    display_classification msg ;; ret None
  else if Py.eq_str msg_type "test:plan" then
    plan <- lift (Py.get msg "plan" (JObj [])) ;;
    modify_self (set_test_plan plan) ;;
    display_test_plan ;;
    ret None
  else if Py.eq_str msg_type "test:start" then
    test <- get msg "test" "Unknown" ;;
    modify_self (set_current_phase [Lit "Running: "; Fmt test]) ;;
    m <- get_self ;;
    console_print
      (RStr ([Lit "[yellow]🚀 "] ++ current_phase m ++ [Lit "[/yellow]"])) ;;
    ret None
  else if Py.eq_str msg_type "finding" then
    modify_self (fun m => set_findings (findings m ++ [msg]) m) ;;
    display_finding msg ;;
    ret None
  else if Py.eq_str msg_type "workflow:complete" then
    display_summary now ;;
    ret (Some false)
  else ret None.

(** *** The receive loop *)

(** A frame, by what [json.loads] makes of it. *)
Inductive message : Type :=
| WellFormed (v : json)
| Malformed (raw : string).

Definition json_loads (m : message) : result json :=
  match m with
  | WellFormed v => Ok v
  | Malformed _ => Raise JSONDecodeError
  end.

(** What one [await asyncio.wait_for(websocket.recv(), timeout=1.0)]
    yields: a frame, or an exception ([TimeoutError] after a second
    without a frame, [ConnectionClosed], [KeyboardInterrupt] when the
    operator interrupts the wait, or a transport error). *)
Inductive recv : Type :=
| Message (m : message)
| RecvRaises (e : exn).

Definition wait_for_recv (r : recv) : M message :=
  match r with
  | Message m => ret m
  | RecvRaises e => raise e
  end.

(** Where a coroutine stands once the script is used up. *)
Inductive task_state : Type :=
| Done          (* it has returned *)
| Awaiting.     (* it is still waiting for the next frame *)

(** The body of the inner [try]. *)
Definition receive_one (now : Z) (r : recv) : M (option bool) :=
  message <- wait_for_recv r ;;
  msg <- lift (json_loads message) ;;
  handle_message now msg.

(** [while True: try: ... except asyncio.TimeoutError: continue
     except websockets.ConnectionClosed: break], over the successive
    outcomes of [recv] paired with the clock reading of each round.
    The value [handle_message] returns is not looked at. *)
Fixpoint listen (script : list (Z * recv)) : M task_state :=
  match script with
  | [] => ret Awaiting
  | (now, r) :: rest =>
      fun w =>
        match receive_one now r w with
        | (w', Ok _) => listen rest w'
        | (w', Raise TimeoutError) => listen rest w'
        | (w', Raise ConnectionClosed) => (w', Ok Done)
        | (w', Raise e) => (w', Raise e)
        end
  end.

Definition subscribe_frame (m : AITestMonitor) : json :=
  JObj [("type", JStr "subscribe"); ("workflowId", JStr (workflow_id m))].

Definition connected_line : renderable :=
  RStr [Lit "[green]✅ WebSocket connected[/green]"].

Definition websocket_error_line (e : exn) : renderable :=
  RStr [Lit "[red]WebSocket error: "; FmtExn e; Lit "[/red]"].

(** [monitor_websocket]; [connect] tells whether opening the connection
    fails. *)
Definition monitor_websocket (connect : option exn)
    (script : list (Z * recv)) : M task_state :=
  try_except
    (match connect with Some e => raise e | None => ret tt end ;;
     m <- get_self ;;
     emit (WsSend (subscribe_frame m)) ;;
     console_print connected_line ;;
     listen script)
    is_Exception
    (fun e => console_print (websocket_error_line e) ;; ret Done).

(** *** The dispatcher and [main] *)

Definition request_data (m : AITestMonitor) (target description scope : string)
  : json :=
  JObj [("workflowId", JStr (workflow_id m));
        ("target", JStr target);
        ("scope", JStr scope);
        ("description", JStr description);
        ("testType", JStr "comprehensive");
        ("options",
         JObj [("includeRecon", JBool true);
               ("includeSubdomains", JBool true);
               ("testAuthentication", JBool true);
               ("testAPIs", JBool true);
               ("verboseLogging", JBool true);
               ("captureAIReasoning", JBool true);
               ("showThoughtProcess", JBool true);
               ("maxInitialTests", JInt 5)])].

(** [send_test_request]; [now] is the clock at the call and [response]
    what the POST and [response.json()] yield: the body, or the
    exception they raise. *)
Definition send_test_request (now : Z) (response : result json)
    (target description scope : string) : M json :=
  modify_self (set_start_time (Some now)) ;;
  m <- get_self ;;
  console_print
    (RPanel
       (RStr [Lit "[bold cyan]Sending Test Request[/bold cyan]"; Lit nl;
              Lit "Target: "; Lit target; Lit nl;
              Lit "Scope: "; Lit scope; Lit nl;
              Lit "Objective: "; Lit (Py.take_chars 100 description);
              Lit "..."])
       [Lit "📤 Request"] "none" true) ;;
  emit (HttpPost (backend_url m ++ "/api/workflows/run")%string
          (request_data m target description scope)) ;;
  lift response.

Record Args : Type := {
  target : string;
  description : string;
  scope : string;
  backend : string;
  ws : string
}.

(** What the run meets outside the program. *)
Record Env : Type := {
  uuid : string;                  (* uuid.uuid4() *)
  t_send : Z;                     (* the clock when the request is built *)
  response : result json;         (* outcome of the POST *)
  connect : option exn;           (* failure of websockets.connect, if any *)
  script : list (Z * recv);       (* what the receive loop is fed *)
  interrupt_reaches_main : bool   (* a KeyboardInterrupt is raised at
                                     main's await (else it leaves through
                                     the event loop) *)
}.

(** [asyncio.gather] over the tasks, with its [return_exceptions] flag, once every task has
    finished: with the flag set an [Exception] of a task is handed back
    in its place in the list; anything else a task raises propagates. *)
Fixpoint gather (return_exceptions : bool) (outcomes : list (result json))
  : result (list (result json)) :=
  match outcomes with
  | [] => Ok []
  | o :: rest =>
      let keep :=
        match gather return_exceptions rest with
        | Ok l => Ok (o :: l)
        | Raise e => Raise e
        end in
      match o with
      | Ok _ => keep
      | Raise e => if is_Exception e && return_exceptions then keep
                   else Raise e
      end
  end.

(** The two tasks of [main].  The dispatcher runs first up to its POST
    (it is the first task scheduled), the receive loop follows; [None]
    when the loop is still waiting, so that [gather] has not returned. *)
Definition run_tasks (args : Args) (env : Env)
  : M (option (list (result json))) :=
  fun w =>
    let '(w1, r1) :=
      send_test_request (t_send env) (response env)
        (target args) (description args) (scope args) w in
    match r1 with
    | Raise KeyboardInterrupt => (w1, Raise KeyboardInterrupt)
    | _ =>
        let '(w2, r2) := monitor_websocket (connect env) (script env) w1 in
        match r2 with
        | Ok Awaiting => (w2, Ok None)
        | Ok Done =>
            (w2, match gather true [r1; Ok JNull] with
                 | Ok l => Ok (Some l)
                 | Raise e => Raise e
                 end)
        | Raise e =>
            (w2, match gather true [r1; Raise e] with
                 | Ok l => Ok (Some l)
                 | Raise e' => Raise e'
                 end)
        end
    end.

(** [for result in results: if isinstance(result, Exception): ...]. *)
Fixpoint report_errors (results : list (result json)) : M unit :=
  match results with
  | [] => ret tt
  | Raise e :: rest =>
      (if is_Exception e then
         console_print (RStr [Lit "[red]Error: "; FmtExn e; Lit "[/red]"])
       else ret tt) ;;
      report_errors rest
  | Ok _ :: rest => report_errors rest
  end.

Definition banner : renderable :=
  RPanel
    (RStr [Lit "[bold cyan]AI Security Test Planning Monitor[/bold cyan]";
           Lit nl;
           Lit "Captures AI's thought process and initial planning"])
    [Lit "🧪 Test Monitor"] "none" true.

(** The world [main] starts in: the monitor it constructs, nothing
    emitted yet. *)
Definition initial_world (args : Args) (env : Env) : World :=
  {| self := __init__ (backend args) (ws args) (uuid env); log := [] |}.

(** How [main] ends when it does not raise. *)
Inductive main_end : Type :=
| Returned                 (* the coroutine returned *)
| Pending                  (* [gather] has not returned yet *)
| SysExit (code : Z).      (* [sys.exit(code)] in the last handler *)

Definition main (args : Args) (env : Env) : M main_end :=
  console_print banner ;;
  try_except
    (results <- run_tasks args env ;;
     match results with
     | None => ret Pending
     | Some l => report_errors l ;; ret Returned
     end)
    (fun e =>
       match e with
       | KeyboardInterrupt => interrupt_reaches_main env
       | _ => is_Exception e
       end)
    (fun e =>
       match e with
       | KeyboardInterrupt =>
           console_print
             (RStr [Lit nl; Lit "[yellow]Monitoring stopped by user[/yellow]"]) ;;
           ret Returned
       | _ =>
           console_print
             (RStr [Lit "[red]Fatal error: "; FmtExn e; Lit "[/red]"]) ;;
           ret (SysExit 1)
       end).

Inductive status : Type :=
| Exited (code : Z)
| Running.

(** The exit code of a process that an uncaught exception ends. *)
Definition exit_code_of (e : exn) : Z :=
  match e with
  | KeyboardInterrupt => 130
  | _ => 1
  end.

(** The [__main__] guard: [asyncio.run(main())] under
    [except KeyboardInterrupt: ...; sys.exit(0)]. *)
Definition run (args : Args) (env : Env) : World * status :=
  match main args env (initial_world args env) with
  | (w, Ok Returned) => (w, Exited 0)
  | (w, Ok Pending) => (w, Running)
  | (w, Ok (SysExit c)) => (w, Exited c)
  | (w, Raise KeyboardInterrupt) =>
      match console_print
              (RStr [Lit nl; Lit "[yellow]Exiting...[/yellow]"]) w with
      | (w', Ok _) => (w', Exited 0)
      | (w', Raise e) => (w', Exited (exit_code_of e))
      end
  | (w, Raise e) => (w, Exited (exit_code_of e))
  end.

End Monitor.

(** ** Observations used in the statements *)

(** The files the process has written so far, oldest first. *)
Definition files_written (w : World) : list (string * artifact) :=
  flat_map (fun e => match e with
                     | FileWrite name content => [(name, content)]
                     | _ => []
                     end) (log w).

(** The world after [findings.append(msg)]. *)
Definition with_finding (msg : json) (w : World) : World :=
  {| self := set_findings (findings (self w) ++ [msg]) (self w);
     log := log w |}.

(** The world after one more [console.print]. *)
Definition with_print (r : renderable) (w : World) : World :=
  {| self := self w; log := log w ++ [ConsolePrint r] |}.

(** The discriminators [handle_message] has a branch for. *)
Definition recognized : list string :=
  ["ai:thinking"; "ai:strategy"; "ai:classification"; "test:plan";
   "test:start"; "finding"; "workflow:complete"].

(** [msg.get('type', 'unknown')] of a record with these fields. *)
Definition discriminator (fields : list (string * json)) : json :=
  match Py.lookup "type" fields with
  | Some v => v
  | None => JStr "unknown"
  end.

(** Whether [msg] is a record that [handle_message] sends to branch [k]. *)
Definition is_kind (k : string) (msg : json) : bool :=
  match msg with
  | JObj fields => Py.eq_str (discriminator fields) k
  | _ => false
  end.

(** [msg.get(k, default)] read off a record. *)
Definition field (msg : json) (k : string) (default : json) : json :=
  match Py.get msg k default with
  | Ok v => v
  | Raise _ => default
  end.

(** The frame a finding with no field but its discriminator is shown in. *)
Definition default_finding_panel : renderable :=
  finding_panel (JStr "finding") (JStr "N/A") (JStr "N/A") "cyan"
    (Py.Upper "info").

(** Sample events and a monitor just constructed. *)
Definition complete_event : json := JObj [("type", JStr "workflow:complete")].

Definition bare_finding : json := JObj [("type", JStr "finding")].

Definition fresh_world : World :=
  {| self := __init__ "http://localhost:8001" "ws://localhost:8001" "id";
     log := [] |}.

(** The world once the connection is open: the subscription sent and the
    connection announced. *)
Definition opened (w : World) : World :=
  {| self := self w;
     log := (log w ++ [WsSend (subscribe_frame (self w))])
            ++ [ConsolePrint connected_line] |}.

(** The successive calls of [handle_message] on a sequence of decoded
    events, each with the clock reading of its call; an exception ends
    the replay, as it ends the receive loop. *)
Fixpoint replay (rich : Rich) (evs : list (Z * json)) : M unit :=
  match evs with
  | [] => ret tt
  | (now, msg) :: rest => handle_message rich now msg ;; replay rich rest
  end.

(** The events a replay gets to: all of them up to and including the
    first one [handle_message] raises on. *)
Fixpoint handled (rich : Rich) (evs : list (Z * json)) (w : World)
  : list (Z * json) :=
  match evs with
  | [] => []
  | (now, msg) :: rest =>
      (now, msg) ::
      match handle_message rich now msg w with
      | (w', Ok _) => handled rich rest w'
      | (_, Raise _) => []
      end
  end.

(** The entry [display_ai_thought] appends for a thinking event. *)
Definition thought_of (ev : Z * json) : thought_entry :=
  {| timestamp := fst ev;
     phase := field (snd ev) "phase" (JStr "general");
     thought := field (snd ev) "content" (JStr "") |}.

(** [msg.get('plan', {})]. *)
Definition plan_payload (msg : json) : json := field msg "plan" (JObj []).

(** The events of each kind in a timed sequence. *)
Definition is_thinking (ev : Z * json) : bool := is_kind "ai:thinking" (snd ev).
Definition is_finding (ev : Z * json) : bool := is_kind "finding" (snd ev).
Definition is_plan (ev : Z * json) : bool := is_kind "test:plan" (snd ev).

(** The last plan event of a sequence, if it has one. *)
Definition last_plan (evs : list (Z * json)) : option json :=
  hd_error (rev (map snd (filter is_plan evs))).

(** What one call of [handle_message] does to the monitor object, whether
    it returns or raises. *)
Definition step_self (now : Z) (msg : json) (m : AITestMonitor)
  : AITestMonitor :=
  if is_kind "ai:thinking" msg then
    set_ai_thoughts (ai_thoughts m ++ [thought_of (now, msg)]) m
  else if is_kind "test:plan" msg then set_test_plan (plan_payload msg) m
  else if is_kind "test:start" msg then
    set_current_phase [Lit "Running: "; Fmt (field msg "test" (JStr "Unknown"))] m
  else if is_kind "finding" msg then set_findings (findings m ++ [msg]) m
  else m.

(** A computation that leaves an observation of the world as it was,
    whether it returns or raises. *)
Definition keeps {T A} (obs : World -> T) (c : M A) : Prop :=
  forall w, obs (fst (c w)) = obs w.

(** An observation that what is printed, sent or posted does not change. *)
Definition ignores_output {T} (obs : World -> T) : Prop :=
  forall w e,
    (forall name content, e <> FileWrite name content) ->
    obs {| self := self w; log := log w ++ [e] |} = obs w.

(** An observation that assignments to the monitor's fields do not
    change. *)
Definition ignores_self {T} (obs : World -> T) : Prop :=
  forall w m, obs {| self := m; log := log w |} = obs w.

(** A thought, a plan, a finding and the completion, in this order. *)
Definition scenario : list (Z * json) :=
  [(1, JObj [("type", JStr "ai:thinking"); ("content", JStr "recon")]);
   (2, JObj [("type", JStr "test:plan");
             ("plan", JObj [("steps",
                             JArr [JObj [("tool", JStr "nmap");
                                         ("purpose", JStr "port scan")]])])]);
   (3, JObj [("type", JStr "finding"); ("severity", JStr "critical")]);
   (4, JObj [("type", JStr "workflow:complete")])].

(** Two plan events with a finding between them. *)
Definition two_plans : list (Z * json) :=
  [(1, JObj [("type", JStr "test:plan");
             ("plan", JObj [("target", JStr "a.example");
                            ("steps", JArr [JObj [("tool", JStr "nmap")]])])]);
   (2, JObj [("type", JStr "finding")]);
   (3, JObj [("type", JStr "test:plan");
             ("plan", JObj [("recommendations",
                             JArr [JObj [("tool", JStr "sqlmap")]])])])].

(** [enumerate(steps, i)]. *)
Fixpoint enumerate (i : Z) (steps : list json) : list (Z * json) :=
  match steps with
  | [] => []
  | step :: rest => (i, step) :: enumerate (i + 1) rest
  end.

(** The list the table rows are drawn from:
    [plan.get('steps', []) or plan.get('recommendations', [])]. *)
Definition chosen_steps (plan : json) : json :=
  let s := field plan "steps" (JArr []) in
  if Py.truthy s then s else field plan "recommendations" (JArr []).

(** The panel shown for the first step. *)
Definition first_step_panel_of (first_step : json) : renderable :=
  first_step_panel (field first_step "tool" (JStr "Unknown"))
    (field first_step "purpose" (JStr "N/A"))
    (field first_step "priority" (JStr "Not specified")).

(** Whether a round of the receive loop hands a completion event to
    [handle_message]. *)
Definition is_complete_frame (r : recv) : bool :=
  match r with
  | Message (WellFormed msg) => is_kind "workflow:complete" msg
  | _ => false
  end.

(** No round of the script hands a completion event over. *)
Definition no_completion (script : list (Z * recv)) : bool :=
  forallb (fun round => negb (is_complete_frame (snd round))) script.

(** Command-line arguments (the defaults, with a shorter description). *)
Definition default_args : Args :=
  {| target := "https://sweetspotgov.com";
     description := "Test all access";
     scope := "/*";
     backend := "http://localhost:8001";
     ws := "ws://localhost:8001" |}.

(** The operator interrupts the first wait, before any frame. *)
Definition cancelled_at_once : Env :=
  {| uuid := "id"; t_send := 100; response := Ok (JObj []);
     connect := None;
     script := [(200, RecvRaises KeyboardInterrupt)];
     interrupt_reaches_main := false |}.

(** The request fails and the channel never opens. *)
Definition backend_down : Env :=
  {| uuid := "id"; t_send := 100; response := Raise ClientError;
     connect := Some OSError;
     script := [];
     interrupt_reaches_main := false |}.

(** A finding whose severity is a number, then a thought. *)
Definition numbered_severity : list (Z * json) :=
  [(1, JObj [("type", JStr "finding"); ("severity", JInt 3)]);
   (2, JObj [("type", JStr "ai:thinking"); ("content", JStr "recon")])].

(** A finding of severity [high], then a thought. *)
Definition high_then_thought : list (Z * json) :=
  [(1, JObj [("type", JStr "finding"); ("severity", JStr "high")]);
   (2, JObj [("type", JStr "ai:thinking"); ("content", JStr "recon")])].

(** A console as rich is for the colours of [severity_colors]: rich has
    no colour named [orange], and printing a panel whose border style it
    cannot parse raises.  Everything else is accepted here. *)
Definition rich_no_orange : Rich :=
  {| Text_raises := fun _ => None;
     add_row_raises := fun _ => None;
     print_raises := fun r =>
       match r with
       | RPanel _ _ border _ =>
           if (border =? "orange")%string then Some RichError else None
       | _ => None
       end |}.

(** A console that prints the banner and every plain line (a string
    with markup): all that [main], the [__main__] guard and the handler
    of [monitor_websocket] print.  The panels and tables of the event
    handlers may still be rejected. *)
Definition prints_lines (rich : Rich) : Prop :=
  print_raises rich banner = None /\
  forall s, print_raises rich (RStr s) = None.

(** Whether a round ends the receive loop whatever came before it: the
    wait raises something other than a timeout (the stream is closed, the
    operator interrupts, the transport fails), or the frame does not
    parse. *)
Definition ends_loop (r : recv) : bool :=
  match r with
  | RecvRaises TimeoutError => false
  | RecvRaises _ => true
  | Message (Malformed _) => true
  | Message (WellFormed _) => false
  end.

(** Whether a script holds a round that ends the receive loop. *)
Definition stops (script : list (Z * recv)) : bool :=
  existsb (fun round => ends_loop (snd round)) script.

(** *** Well-typed events *)

(** Whether a decoded value is a [dict]. *)
Definition is_record (v : json) : bool :=
  match v with JObj _ => true | _ => false end.

(** Whether a decoded value is a [str]. *)
Definition is_text (v : json) : bool :=
  match v with JStr _ => true | _ => false end.

(** Whether a decoded value is a number ([bool] included). *)
Definition is_number (v : json) : bool :=
  match v with JBool _ | JInt _ | JFloat _ => true | _ => false end.

(** A strategy event whose [strategy] is a record and whose
    [recommendations], when present, is a list of records. *)
Definition well_typed_strategy (msg : json) : bool :=
  match field msg "strategy" (JObj []) with
  | JObj sfields =>
      match Py.lookup "recommendations" sfields with
      | None => true
      | Some (JArr recs) => forallb is_record recs
      | Some _ => false
      end
  | _ => false
  end.

(** A plan step that is a record whose target (its own, else the plan's,
    else the default) can be sliced. *)
Definition well_typed_step (plan step : json) : bool :=
  is_record step &&
  match field step "target" (field plan "target" (JStr "N/A")) with
  | JStr _ | JArr _ => true
  | _ => false
  end.

(** A plan event whose payload is falsy, or a record whose chosen steps
    are a list of well-typed steps. *)
Definition well_typed_plan (msg : json) : bool :=
  let plan := field msg "plan" (JObj []) in
  negb (Py.truthy plan) ||
  (is_record plan &&
   match chosen_steps plan with
   | JArr items => forallb (well_typed_step plan) items
   | _ => false
   end).

(** An event whose fields have the types its handler relies on: a
    record, with the optional fields the handler calls methods on of the
    type that has them, and a confidence that is a number a float can
    hold. *)
Definition well_typed (msg : json) : bool :=
  match msg with
  | JObj fields =>
      let d := discriminator fields in
      if Py.eq_str d "ai:strategy" then well_typed_strategy msg
      else if Py.eq_str d "ai:classification" then
        is_number (field msg "confidence" (JInt 0)) &&
        Py.fits_float (field msg "confidence" (JInt 0))
      else if Py.eq_str d "test:plan" then well_typed_plan msg
      else if Py.eq_str d "finding" then
        is_text (field msg "severity" (JStr "info"))
      else true
  | _ => false
  end.

(** A rich that rejects nothing. *)
Definition accepting (rich : Rich) : Prop :=
  (forall t, Text_raises rich t = None) /\
  (forall row, add_row_raises rich row = None) /\
  (forall r, print_raises rich r = None).

(** A computation that never raises. *)
Definition returns {A} (c : M A) : Prop :=
  forall w, exists w' a, c w = (w', Ok a).

(** *** Observations for the further properties *)

(** Whether a round of the receive loop is a wait that timed out. *)
Definition is_timeout_round (round : Z * recv) : bool :=
  match snd round with
  | RecvRaises TimeoutError => true
  | _ => false
  end.

(** The panel [send_test_request] prints before it posts. *)
Definition request_panel (target scope description : string) : renderable :=
  RPanel
    (RStr [Lit "[bold cyan]Sending Test Request[/bold cyan]"; Lit nl;
           Lit "Target: "; Lit target; Lit nl;
           Lit "Scope: "; Lit scope; Lit nl;
           Lit "Objective: "; Lit (Py.take_chars 100 description);
           Lit "..."])
    [Lit "📤 Request"] "none" true.

(** A computation after which the monitor object stands in relation [R]
    to the one before, whether it returns or raises. *)
Definition evolves (R : AITestMonitor -> AITestMonitor -> Prop) {A}
    (c : M A) : Prop :=
  forall w, R (self w) (self (fst (c w))).

(** The monitor [m'] is [m] with entries appended to its two logs at
    most: the identity of the session (urls, workflow id, start time) is
    the same and what was logged is still there, in place. *)
Definition extends_logs (m m' : AITestMonitor) : Prop :=
  backend_url m' = backend_url m /\
  ws_url m' = ws_url m /\
  workflow_id m' = workflow_id m /\
  start_time m' = start_time m /\
  (exists entries, ai_thoughts m' = ai_thoughts m ++ entries) /\
  (exists entries, findings m' = findings m ++ entries).

(** Whether a decoded value is none of [str], [list] and [dict]: the
    values the [in] operator does not apply to. *)
Definition is_scalar (v : json) : bool :=
  match v with
  | JNull | JBool _ | JInt _ | JFloat _ => true
  | _ => false
  end.

(** Whether a number converts to a float, as the percent format needs:
    a Python [int] does when it is below [2^1023] in magnitude (the
    conversion overflows from about [2^1024] on), a [bool] and a [float]
    always do. *)
Definition float_sized (v : json) : bool :=
  match v with
  | JInt n => Z.abs n <? 2 ^ 1023
  | _ => true
  end.

(** The panel [display_classification] prints. *)
Definition classification_panel (intent confidence : json) : renderable :=
  RPanel
    (RStr [Lit "Intent: [bold]"; Fmt intent; Lit "[/bold]"; Lit nl;
           Lit "Confidence: [yellow]"; FmtPercent confidence;
           Lit "[/yellow]"])
    [Lit "🎯 Intent Classification"] "green" false.

(** The items [display_strategy] draws its rows from: those of
    [strategy['recommendations']] when ['recommendations' in strategy],
    none otherwise. *)
Definition strategy_items (strategy : json) : result (list json) :=
  let? has := Py.contains "recommendations" strategy in
  if has : bool then
    let? recs := Py.getitem strategy "recommendations" in Py.iter recs
  else Ok [].

(** The row of the strategy table for one recommendation. *)
Definition strategy_row (strategy rec : json) : list renderable :=
  [RValue (field strategy "phase" (JStr "N/A"));
   RStr [Fmt (field rec "tool" (JStr "Unknown")); Lit ": ";
         Fmt (field rec "purpose" (JStr ""))];
   RValue (field rec "priority" (JStr "medium"))].

(** The table [display_strategy] prints, with the rows added to it. *)
Definition strategy_table (rows : list (list renderable)) : renderable :=
  RTable "📋 AI Strategy" strategy_columns rows.

(** The panel [display_strategy] prints after the table. *)
Definition reasoning_panel (reasoning : json) : renderable :=
  RPanel (RValue reasoning) [Lit "💭 Reasoning"] "blue" false.

(** A strategy event with two recommendations, the second without
    fields. *)
Definition sample_strategy : json :=
  JObj [("type", JStr "ai:strategy");
        ("strategy",
         JObj [("phase", JStr "recon");
               ("recommendations",
                JArr [JObj [("tool", JStr "nmap");
                            ("purpose", JStr "port scan");
                            ("priority", JStr "high")];
                      JObj []])])].

(** The world after [websocket.send] of the subscription. *)
Definition sent (w : World) : World :=
  {| self := self w; log := log w ++ [WsSend (subscribe_frame (self w))] |}.

(** What went out on the network so far: the requests posted and the
    frames sent, oldest first. *)
Definition network (w : World) : list effect :=
  filter (fun e => match e with
                   | WsSend _ | HttpPost _ _ => true
                   | _ => false
                   end) (log w).

(** The environment with another outcome of the POST. *)
Definition with_response (r : result json) (env : Env) : Env :=
  {| uuid := uuid env; t_send := t_send env; response := r;
     connect := connect env; script := script env;
     interrupt_reaches_main := interrupt_reaches_main env |}.

(** The number of completion events a script hands over. *)
Definition count_completions (script : list (Z * recv)) : nat :=
  List.length (filter (fun round => is_complete_frame (snd round)) script).

(** The entry [display_summary] adds to the files written, at clock
    reading [now]. *)
Definition summary_file (now : Z) (m : AITestMonitor) : string * artifact :=
  (output_file m, summary_record m (duration_at now m)).

(** A file of the session [u] started at [t0]: named after [u], holding
    [u], with the time elapsed from [t0] to one of [times] as duration. *)
Definition artifact_ok (u : string) (t0 : Z) (times : list Z)
    (f : string * artifact) : Prop :=
  fst f = ("ai-analysis-" ++ u ++ ".json")%string /\
  a_workflowId (snd f) = u /\
  exists now, In now times /\ a_duration (snd f) = now - t0.

(** The monitor [m'] belongs to the same session as [m]. *)
Definition same_session (m m' : AITestMonitor) : Prop :=
  workflow_id m' = workflow_id m /\ start_time m' = start_time m.

(** * Properties *)

(** ** Unrecognized events *)

Lemma handle_message_dispatch (rich : Rich) (now : Z)
    (fields : list (string * json)) (w : World) :
  handle_message rich now (JObj fields) w =
  let msg := JObj fields in
  let msg_type := discriminator fields in
  (if Py.eq_str msg_type "ai:thinking" then
     ph <- get msg "phase" "general" ;;
     content <- get msg "content" "" ;;
     display_ai_thought rich now ph content ;;
     ret None
   else if Py.eq_str msg_type "ai:strategy" then
     display_strategy rich msg ;; ret None
   else if Py.eq_str msg_type "ai:classification" then
     display_classification rich msg ;; ret None
   else if Py.eq_str msg_type "test:plan" then
     plan <- lift (Py.get msg "plan" (JObj [])) ;;
     modify_self (set_test_plan plan) ;;
     display_test_plan rich ;;
     ret None
   else if Py.eq_str msg_type "test:start" then
     test <- get msg "test" "Unknown" ;;
     modify_self (set_current_phase [Lit "Running: "; Fmt test]) ;;
     m <- get_self ;;
     console_print rich
       (RStr ([Lit "[yellow]🚀 "] ++ current_phase m ++ [Lit "[/yellow]"])) ;;
     ret None
   else if Py.eq_str msg_type "finding" then
     modify_self (fun m => set_findings (findings m ++ [msg]) m) ;;
     display_finding rich msg ;;
     ret None
   else if Py.eq_str msg_type "workflow:complete" then
     display_summary rich now ;;
     ret (Some false)
   else ret None) w.
Proof. reflexivity. Qed.

(** C9. An event whose discriminator is none of the recognized ones is a
    no-op: [handle_message] returns [None] without raising and leaves the
    monitor and the output exactly as they were. *)
Theorem handle_message_unrecognized (rich : Rich) (now : Z)
    (fields : list (string * json)) (w : World) :
  (forall k, In k recognized -> Py.eq_str (discriminator fields) k = false) ->
  handle_message rich now (JObj fields) w = (w, Ok None).
Proof.
  intros H. rewrite handle_message_dispatch. cbv zeta.
  rewrite !H by (unfold recognized; simpl; tauto).
  reflexivity.
Qed.

Lemma handle_message_unrecognized_witness :
  handle_message rich_quiet 7 (JObj [("type", JStr "heartbeat"); ("n", JInt 3)])
    {| self := __init__ "http://b" "ws://b" "id"; log := [] |}
  = ({| self := __init__ "http://b" "ws://b" "id"; log := [] |}, Ok None).
Proof.
  apply (handle_message_unrecognized rich_quiet 7
           [("type", JStr "heartbeat"); ("n", JInt 3)]).
  intros k Hk. simpl in Hk.
  repeat (destruct Hk as [<- | Hk]; [reflexivity|]). destruct Hk.
Defined.

(** ** Findings *)

Lemma eq_str_true (v : json) (k : string) :
  Py.eq_str v k = true -> v = JStr k.
Proof.
  destruct v; simpl; try discriminate.
  intros H. apply String.eqb_eq in H. now subst.
Qed.

Lemma display_finding_non_string (rich : Rich) (fields : list (string * json))
    (severity : json) (w : World) :
  Py.lookup "severity" fields = Some severity ->
  (forall s, severity <> JStr s) ->
  exists e,
    is_Exception e = true /\ e <> TimeoutError /\ e <> ConnectionClosed /\
    display_finding rich (JObj fields) w = (w, Raise e).
Proof.
  intros Hsev Hns.
  unfold display_finding, get, bind, lift. simpl. rewrite Hsev.
  destruct severity as [ | b | z | f | s | items | fs ];
    try (exfalso; apply (Hns s); reflexivity);
    try (exists AttributeError; repeat split; congruence);
    exists TypeError; repeat split; congruence.
Qed.

(** C10. A finding whose [severity] is present and is not a string makes
    [handle_message] raise, after the finding has been appended: the
    exception is an [Exception] other than the two the per-frame handler
    catches, so the receive loop ends with it whatever frames follow.  A
    finding whose fields are absent is shown with the placeholder
    defaults instead (when the console accepts the panel). *)
Theorem finding_non_string_severity_ends_listening (rich : Rich) (now : Z)
    (fields : list (string * json)) (severity : json)
    (rest : list (Z * recv)) (w : World) :
  Py.eq_str (discriminator fields) "finding" = true ->
  Py.lookup "severity" fields = Some severity ->
  (forall s, severity <> JStr s) ->
  (exists e,
      is_Exception e = true /\ e <> TimeoutError /\ e <> ConnectionClosed /\
      handle_message rich now (JObj fields) w
      = (with_finding (JObj fields) w, Raise e) /\
      listen rich ((now, Message (WellFormed (JObj fields))) :: rest) w
      = (with_finding (JObj fields) w, Raise e)) /\
  (print_raises rich default_finding_panel = None ->
   handle_message rich now (JObj [("type", JStr "finding")]) w
   = (with_print default_finding_panel
        (with_finding (JObj [("type", JStr "finding")]) w), Ok None)).
Proof.
  intros Hk Hsev Hns. split.
  - destruct (display_finding_non_string rich fields severity
                (with_finding (JObj fields) w) Hsev Hns)
      as (e & He & Ht & Hc & Hd).
    assert (Hh : handle_message rich now (JObj fields) w
                 = (with_finding (JObj fields) w, Raise e)).
    { rewrite handle_message_dispatch. cbv zeta.
      rewrite (eq_str_true _ _ Hk). simpl.
      unfold bind at 1. unfold modify_self at 1.
      fold (with_finding (JObj fields) w).
      unfold bind. rewrite Hd. reflexivity. }
    exists e. repeat split; trivial.
    simpl. unfold receive_one, bind, wait_for_recv, ret, lift. simpl.
    rewrite Hh. destruct e; congruence.
  - intros Hp. rewrite handle_message_dispatch.
    cbv in Hp. cbv. rewrite Hp. reflexivity.
Qed.

Lemma finding_non_string_severity_ends_listening_witness :
  let w := {| self := __init__ "http://b" "ws://b" "id"; log := [] |} in
  let msg := JObj [("type", JStr "finding"); ("severity", JNull)] in
  exists e,
    listen rich_quiet
      [(1, Message (WellFormed msg));
       (2, Message (WellFormed (JObj [("type", JStr "finding")])))] w
    = (with_finding msg w, Raise e).
Proof.
  intros w msg.
  destruct (finding_non_string_severity_ends_listening rich_quiet 1
              [("type", JStr "finding"); ("severity", JNull)] JNull
              [(2, Message (WellFormed (JObj [("type", JStr "finding")])))] w)
    as [(e & _ & _ & _ & _ & Hl) _].
  - reflexivity.
  - reflexivity.
  - discriminate.
  - exists e. exact Hl.
Defined.

(** ** The summary *)

Lemma files_written_app (s : AITestMonitor) (s' : AITestMonitor)
    (l l' : list effect) :
  files_written {| self := s'; log := l ++ l' |}
  = files_written {| self := s; log := l |}
    ++ files_written {| self := s; log := l' |}.
Proof. unfold files_written. simpl. apply flat_map_app. Qed.

(** C6. When the console accepts the summary panel, [display_summary]
    writes one artifact, named after the workflow id, whose duration is
    exactly zero if [start_time] was never set and the time elapsed since
    [start_time] otherwise; the panel shows the same duration. *)
Theorem display_summary_duration (rich : Rich) (now : Z) (w : World) :
  print_raises rich (summary_panel (self w) (duration_at now (self w))) = None ->
  exists art,
    files_written (fst (display_summary rich now w))
    = files_written w ++ [(output_file (self w), art)] /\
    In (ConsolePrint (summary_panel (self w) (a_duration art)))
       (log (fst (display_summary rich now w))) /\
    (start_time (self w) = None -> a_duration art = 0) /\
    (forall t, start_time (self w) = Some t -> a_duration art = now - t).
Proof.
  intros Hp.
  exists (summary_record (self w) (duration_at now (self w))).
  assert (Hd : (start_time (self w) = None -> duration_at now (self w) = 0) /\
               (forall t, start_time (self w) = Some t ->
                          duration_at now (self w) = now - t)).
  { unfold duration_at. split; [intros -> | intros t ->]; reflexivity. }
  destruct Hd as [Hd0 Hd1].
  unfold display_summary, bind, get_self, console_print. rewrite Hp.
  unfold emit at 1. cbn [self log].
  destruct (print_raises rich (RStr _)); cbn [fst raise emit self log].
  - repeat split; trivial.
    + destruct w as [m l]. cbn [self log].
      rewrite (files_written_app m m), (files_written_app m m). simpl.
      now rewrite app_nil_r.
    + apply in_or_app. left. apply in_or_app. right. now left.
  - repeat split; trivial.
    + destruct w as [m l]. cbn [self log].
      rewrite (files_written_app m m), (files_written_app m m),
        (files_written_app m m). simpl. now rewrite !app_nil_r.
    + apply in_or_app. left. apply in_or_app. left. apply in_or_app.
      right. now left.
Qed.

Lemma display_summary_duration_witness :
  let m := set_start_time (Some 1000000) (__init__ "http://b" "ws://b" "id") in
  let w := {| self := m; log := [] |} in
  exists art,
    files_written (fst (display_summary rich_quiet 4500000 w))
    = [("ai-analysis-id.json", art)] /\
    a_duration art = 3500000.
Proof.
  intros m w.
  destruct (display_summary_duration rich_quiet 4500000 w) as
    (art & Hf & _ & _ & Ht).
  - reflexivity.
  - exists art. split; [exact Hf | exact (Ht 1000000 eq_refl)].
Defined.

(** ** The receive loop *)

(** The loop goes on after any frame [handle_message] returns from,
    whatever the value returned. *)
Lemma listen_ignores_return (rich : Rich) (now : Z) (msg : json)
    (rest : list (Z * recv)) (w w' : World) (b : option bool) :
  handle_message rich now msg w = (w', Ok b) ->
  listen rich ((now, Message (WellFormed msg)) :: rest) w = listen rich rest w'.
Proof.
  intros H. simpl. unfold receive_one, bind, wait_for_recv, ret, lift. simpl.
  now rewrite H.
Qed.

Lemma listen_app (rich : Rich) (pre post : list (Z * recv)) (w w' : World) :
  listen rich pre w = (w', Ok Awaiting) ->
  listen rich (pre ++ post) w = listen rich post w'.
Proof.
  revert w. induction pre as [|[now r] pre IH]; intros w H.
  - simpl in H. unfold ret in H. now inversion H.
  - simpl in *. destruct (receive_one rich now r w) as [w1 [b|e]].
    + now apply IH.
    + destruct e; try discriminate; now apply IH.
Qed.

(** C1. On the frames [workflow:complete, finding, workflow:complete] the
    loop does not stop at the first completion: the finding that follows
    is appended, the summary is written a second time, and the loop is
    still waiting for frames afterwards. *)
Theorem workflow_complete_does_not_stop_listening :
  let script := [(10, Message (WellFormed complete_event));
                 (20, Message (WellFormed bare_finding));
                 (30, Message (WellFormed complete_event))] in
  handle_message rich_quiet 10 complete_event fresh_world
  = (fst (handle_message rich_quiet 10 complete_event fresh_world),
     Ok (Some false)) /\
  snd (listen rich_quiet script fresh_world) = Ok Awaiting /\
  findings (self (fst (listen rich_quiet script fresh_world))) = [bare_finding] /\
  map fst (files_written (fst (listen rich_quiet script fresh_world)))
  = ["ai-analysis-id.json"; "ai-analysis-id.json"].
Proof. vm_compute. repeat split. Qed.

(** C2 as stated fails: with a malformed frame between two findings the
    second finding is never recorded and [monitor_websocket] has returned
    although a frame was still to come. *)
Lemma malformed_frame_counterexample :
  let second := JObj [("type", JStr "finding"); ("severity", JStr "low")] in
  let script := [(10, Message (WellFormed bare_finding));
                 (20, Message (Malformed "{not json"));
                 (30, Message (WellFormed second))] in
  snd (monitor_websocket rich_quiet None script fresh_world) = Ok Done /\
  findings (self (fst (monitor_websocket rich_quiet None script fresh_world)))
  = [bare_finding] /\
  ~ In second
      (findings (self (fst (monitor_websocket rich_quiet None script
                              fresh_world)))).
Proof.
  vm_compute. repeat split. intros [H | []]. discriminate H.
Qed.

Lemma monitor_websocket_opened (rich : Rich) (script : list (Z * recv))
    (w : World) :
  print_raises rich connected_line = None ->
  monitor_websocket rich None script w
  = try_except (listen rich script) is_Exception
      (fun e => console_print rich (websocket_error_line e) ;; ret Done)
      (opened w).
Proof.
  intros Hc. unfold monitor_websocket, try_except, bind, ret, get_self, emit,
    console_print. cbn [self log]. rewrite Hc. reflexivity.
Qed.

(** C2, amended. A frame that fails to parse ends the receive loop: after
    any frames the loop came through, [json.loads] raises on the malformed
    one and the exception leaves the loop, with the state accumulated so
    far untouched and the frames that follow never looked at;
    [monitor_websocket] reports it as a WebSocket error and returns. *)
Theorem malformed_frame_ends_listening (rich : Rich)
    (pre rest : list (Z * recv)) (now : Z) (raw : string) (w w' : World) :
  print_raises rich connected_line = None ->
  print_raises rich (websocket_error_line JSONDecodeError) = None ->
  listen rich pre (opened w) = (w', Ok Awaiting) ->
  listen rich (pre ++ (now, Message (Malformed raw)) :: rest) (opened w)
  = (w', Raise JSONDecodeError) /\
  monitor_websocket rich None (pre ++ (now, Message (Malformed raw)) :: rest) w
  = (with_print (websocket_error_line JSONDecodeError) w', Ok Done).
Proof.
  intros Hc He H.
  assert (Hl : listen rich (pre ++ (now, Message (Malformed raw)) :: rest)
                 (opened w) = (w', Raise JSONDecodeError)).
  { rewrite (listen_app rich pre _ (opened w) w' H). reflexivity. }
  split; [exact Hl|].
  rewrite (monitor_websocket_opened rich _ w Hc).
  unfold try_except. rewrite Hl. cbn [is_Exception].
  unfold bind, console_print. rewrite He. reflexivity.
Qed.

Lemma malformed_frame_ends_listening_witness :
  let second := JObj [("type", JStr "finding"); ("severity", JStr "low")] in
  let script := [(10, Message (WellFormed bare_finding))]
                ++ (20, Message (Malformed "{not json"))
                :: [(30, Message (WellFormed second))] in
  monitor_websocket rich_quiet None script fresh_world
  = (with_print (websocket_error_line JSONDecodeError)
       (fst (listen rich_quiet [(10, Message (WellFormed bare_finding))]
               (opened fresh_world))),
     Ok Done).
Proof.
  intros second script.
  apply (malformed_frame_ends_listening rich_quiet
           [(10, Message (WellFormed bare_finding))]
           [(30, Message (WellFormed second))] 20 "{not json"
           fresh_world); reflexivity.
Defined.

(** ** Replaying events through the classifier *)

(** *** Computations that leave an observation of the world alone *)

Lemma self_ignores_output : ignores_output self.
Proof. intros w e _. reflexivity. Qed.

Lemma files_ignore_output : ignores_output files_written.
Proof.
  intros [m l] e He. cbn [self log]. rewrite (files_written_app m m).
  destruct e; try now rewrite app_nil_r.
  now elim (He name content).
Qed.

Lemma files_ignore_self : ignores_self files_written.
Proof. intros w m. reflexivity. Qed.

Section Keeps.

Context {T : Type} (obs : World -> T).

Lemma keeps_ret {A} (a : A) : keeps obs (ret a).
Proof. intros w. reflexivity. Qed.

Lemma keeps_raise {A} (e : exn) : keeps obs (@raise A e).
Proof. intros w. reflexivity. Qed.

Lemma keeps_lift {A} (r : result A) : keeps obs (lift r).
Proof. intros w. reflexivity. Qed.

Lemma keeps_get (d : json) (k default : string) : keeps obs (get d k default).
Proof. apply keeps_lift. Qed.

Lemma keeps_get_self : keeps obs get_self.
Proof. intros w. reflexivity. Qed.

Lemma keeps_bind {A B} (c : M A) (k : A -> M B) :
  keeps obs c -> (forall a, keeps obs (k a)) -> keeps obs (bind c k).
Proof.
  intros Hc Hk w. unfold bind. specialize (Hc w).
  destruct (c w) as [w1 [a|e]]; simpl in *.
  - now rewrite Hk.
  - exact Hc.
Qed.

Lemma keeps_try_except {A} (c : M A) (catches : exn -> bool)
    (handler : exn -> M A) :
  keeps obs c -> (forall e, keeps obs (handler e)) ->
  keeps obs (try_except c catches handler).
Proof.
  intros Hc Hh w. unfold try_except. specialize (Hc w).
  destruct (c w) as [w1 [a|e]]; simpl in *; [exact Hc|].
  destruct (catches e); simpl; [|exact Hc].
  now rewrite Hh.
Qed.

Lemma keeps_modify_self (f : AITestMonitor -> AITestMonitor) :
  ignores_self obs -> keeps obs (modify_self f).
Proof. intros H w. apply H. Qed.

Hypothesis Hobs : ignores_output obs.

Lemma keeps_console_print (rich : Rich) (r : renderable) :
  keeps obs (console_print rich r).
Proof.
  unfold console_print. destruct (print_raises rich r);
    [apply keeps_raise | intros w; now apply Hobs].
Qed.

Lemma keeps_Text (rich : Rich) (t : json) (style : string) :
  keeps obs (Text rich t style).
Proof.
  unfold Text. destruct (Text_raises rich t);
    [apply keeps_raise | apply keeps_ret].
Qed.

Lemma keeps_add_row (rich : Rich) (rows : list (list renderable))
    (row : list renderable) :
  keeps obs (add_row rich rows row).
Proof.
  unfold add_row. destruct (add_row_raises rich row);
    [apply keeps_raise | apply keeps_ret].
Qed.

Lemma keeps_ws_send (frame : json) : keeps obs (emit (WsSend frame)).
Proof. intros w. now apply Hobs. Qed.

Lemma keeps_http_post (url : string) (body : json) :
  keeps obs (emit (HttpPost url body)).
Proof. intros w. now apply Hobs. Qed.

End Keeps.

Create HintDb keeps.
#[local] Hint Resolve self_ignores_output files_ignore_output
  files_ignore_self : keeps.
#[local] Hint Resolve keeps_ret keeps_raise keeps_lift keeps_get
  keeps_get_self keeps_modify_self keeps_console_print keeps_Text
  keeps_add_row keeps_ws_send keeps_http_post : keeps.

Ltac keeps :=
  repeat first
    [ progress auto with keeps
    | apply keeps_bind; [ | intros ? ]
    | apply keeps_try_except; [ | intros ? ]
    | match goal with
      | |- keeps _ (if ?b then _ else _) => destruct b
      | |- keeps _ (match ?x with _ => _ end) => destruct x
      end ].

Section KeepsDisplay.

Context {T : Type} (obs : World -> T) (Hobs : ignores_output obs).

Lemma keeps_strategy_rows (rich : Rich) (strategy : json) (recs : list json) :
  forall rows, keeps obs (strategy_rows rich strategy recs rows).
Proof. induction recs as [|rec recs IH]; intros rows; simpl; keeps. Qed.

Lemma keeps_plan_rows (rich : Rich) (plan : json) (steps : list json) :
  forall i rows, keeps obs (plan_rows rich plan i steps rows).
Proof. induction steps as [|step steps IH]; intros i rows; simpl; keeps. Qed.

Hint Resolve keeps_strategy_rows keeps_plan_rows : keeps.

Lemma keeps_display_strategy (rich : Rich) (msg : json) :
  keeps obs (display_strategy rich msg).
Proof. unfold display_strategy. keeps. Qed.

Lemma keeps_display_classification (rich : Rich) (msg : json) :
  keeps obs (display_classification rich msg).
Proof. unfold display_classification. keeps. Qed.

Lemma keeps_display_test_plan (rich : Rich) :
  keeps obs (display_test_plan rich).
Proof. unfold display_test_plan. keeps. Qed.

Lemma keeps_display_finding (rich : Rich) (msg : json) :
  keeps obs (display_finding rich msg).
Proof. unfold display_finding. keeps. Qed.

End KeepsDisplay.

#[local] Hint Resolve keeps_display_strategy keeps_display_classification
  keeps_display_test_plan keeps_display_finding : keeps.

Lemma keeps_display_summary (rich : Rich) (now : Z) :
  keeps self (display_summary rich now).
Proof. unfold display_summary. keeps. intros w. reflexivity. Qed.

#[local] Hint Resolve keeps_display_summary : keeps.

Lemma self_bind {A B} (c : M A) (k : A -> M B) (w : World) (m : AITestMonitor) :
  self (fst (c w)) = m -> (forall a, keeps self (k a)) ->
  self (fst (bind c k w)) = m.
Proof.
  intros Hc Hk. unfold bind.
  destruct (c w) as [w1 [a|e]]; simpl in *.
  - now rewrite Hk.
  - exact Hc.
Qed.

Ltac self_after :=
  repeat (apply self_bind; [ | intros ?; keeps ]);
  first [ reflexivity | match goal with |- self (fst (?c ?w)) = self ?w =>
                          apply (_ : keeps self c) end ].

Lemma handle_message_self (rich : Rich) (now : Z) (msg : json) (w : World) :
  self (fst (handle_message rich now msg w)) = step_self now msg (self w).
Proof.
  destruct msg as [ | b | z | f | s | items | fields ]; try reflexivity.
  rewrite handle_message_dispatch. cbv zeta.
  unfold step_self, is_kind.
  destruct (Py.eq_str (discriminator fields) "ai:thinking") eqn:H1.
  { unfold get, lift, bind at 1 2. simpl. unfold display_ai_thought.
    self_after. }
  destruct (Py.eq_str (discriminator fields) "ai:strategy") eqn:H2.
  { rewrite (eq_str_true (discriminator fields) _ H2). simpl.
    apply self_bind;
      [ apply (keeps_display_strategy self self_ignores_output) | intros; keeps ]. }
  destruct (Py.eq_str (discriminator fields) "ai:classification") eqn:H3.
  { rewrite (eq_str_true (discriminator fields) _ H3). simpl.
    apply self_bind;
      [ apply (keeps_display_classification self self_ignores_output)
      | intros; keeps ]. }
  destruct (Py.eq_str (discriminator fields) "test:plan") eqn:H4.
  { unfold lift, bind at 1. simpl. self_after. }
  destruct (Py.eq_str (discriminator fields) "test:start") eqn:H5.
  { unfold get, lift, bind at 1. simpl. self_after. }
  destruct (Py.eq_str (discriminator fields) "finding") eqn:H6.
  { self_after. }
  destruct (Py.eq_str (discriminator fields) "workflow:complete") eqn:H7.
  { apply self_bind; [ apply keeps_display_summary | intros; keeps ]. }
  reflexivity.
Qed.

(** [send_test_request] records the start time when the request is sent,
    whatever becomes of the request. *)
Lemma send_test_request_sets_start_time (rich : Rich) (now : Z)
    (response : result json) (target description scope : string)
    (w : World) :
  start_time
    (self (fst (send_test_request rich now response target description
                  scope w)))
  = Some now.
Proof.
  unfold send_test_request.
  rewrite (self_bind _ _ w (set_start_time (Some now) (self w)));
    [reflexivity | reflexivity | intros; keeps].
Qed.

Lemma replay_self (rich : Rich) (evs : list (Z * json)) :
  forall w,
    self (fst (replay rich evs w))
    = fold_left (fun m ev => step_self (fst ev) (snd ev) m)
        (handled rich evs w) (self w).
Proof.
  induction evs as [|[now msg] rest IH]; intros w; [reflexivity|].
  simpl. unfold bind.
  pose proof (handle_message_self rich now msg w) as Hs.
  destruct (handle_message rich now msg w) as [w1 [b|e]]; simpl in *.
  - rewrite IH, Hs. reflexivity.
  - exact Hs.
Qed.

Lemma handled_all (rich : Rich) (evs : list (Z * json)) :
  forall w, snd (replay rich evs w) = Ok tt -> handled rich evs w = evs.
Proof.
  induction evs as [|[now msg] rest IH]; intros w H; [reflexivity|].
  simpl in *. unfold bind in H.
  destruct (handle_message rich now msg w) as [w1 [b|e]]; simpl in *.
  - now rewrite IH.
  - discriminate.
Qed.

(** A replay that does not raise is what the receive loop does on the
    same events arriving as well-formed frames. *)
Lemma listen_replay (rich : Rich) (evs : list (Z * json)) :
  forall w w',
    replay rich evs w = (w', Ok tt) ->
    listen rich (map (fun ev => (fst ev, Message (WellFormed (snd ev)))) evs) w
    = (w', Ok Awaiting).
Proof.
  induction evs as [|[now msg] rest IH]; intros w w' H.
  - simpl in *. unfold ret in H. now inversion H.
  - simpl in *. unfold receive_one, bind, wait_for_recv, ret, lift in *.
    simpl. destruct (handle_message rich now msg w) as [w1 [b|e]].
    + now apply IH.
    + discriminate.
Qed.

Lemma is_kind_true (k : string) (msg : json) :
  is_kind k msg = true ->
  exists fields, msg = JObj fields /\ discriminator fields = JStr k.
Proof.
  destruct msg; simpl; try discriminate.
  intros H. eexists. split; [reflexivity|]. now apply eq_str_true.
Qed.

Lemma is_kind_exclusive (k k' : string) (msg : json) :
  is_kind k msg = true -> k <> k' -> is_kind k' msg = false.
Proof.
  intros H Hne. destruct (is_kind_true k msg H) as (fields & -> & Hd).
  simpl. rewrite Hd. simpl. now apply String.eqb_neq.
Qed.

Ltac other_kind H :=
  rewrite (is_kind_exclusive _ _ _ H) by discriminate.

Lemma step_self_ai_thoughts (now : Z) (msg : json) (m : AITestMonitor) :
  ai_thoughts (step_self now msg m)
  = ai_thoughts m
    ++ (if is_kind "ai:thinking" msg then [thought_of (now, msg)] else []).
Proof.
  unfold step_self.
  destruct (is_kind "ai:thinking" msg); [reflexivity|].
  rewrite app_nil_r.
  destruct (is_kind "test:plan" msg); [reflexivity|].
  destruct (is_kind "test:start" msg); [reflexivity|].
  destruct (is_kind "finding" msg); reflexivity.
Qed.

Lemma step_self_findings (now : Z) (msg : json) (m : AITestMonitor) :
  findings (step_self now msg m)
  = findings m ++ (if is_kind "finding" msg then [msg] else []).
Proof.
  unfold step_self.
  destruct (is_kind "ai:thinking" msg) eqn:H1.
  { other_kind H1. simpl. now rewrite app_nil_r. }
  destruct (is_kind "test:plan" msg) eqn:H2.
  { other_kind H2. simpl. now rewrite app_nil_r. }
  destruct (is_kind "test:start" msg) eqn:H3.
  { other_kind H3. simpl. now rewrite app_nil_r. }
  destruct (is_kind "finding" msg); simpl; [reflexivity|].
  now rewrite app_nil_r.
Qed.

Lemma step_self_test_plan (now : Z) (msg : json) (m : AITestMonitor) :
  test_plan (step_self now msg m)
  = if is_kind "test:plan" msg then plan_payload msg else test_plan m.
Proof.
  unfold step_self.
  destruct (is_kind "ai:thinking" msg) eqn:H1.
  { other_kind H1. reflexivity. }
  destruct (is_kind "test:plan" msg); [reflexivity|].
  destruct (is_kind "test:start" msg); [reflexivity|].
  destruct (is_kind "finding" msg); reflexivity.
Qed.

Lemma fold_step_ai_thoughts (l : list (Z * json)) :
  forall m,
    ai_thoughts (fold_left (fun m ev => step_self (fst ev) (snd ev) m) l m)
    = ai_thoughts m ++ map thought_of (filter is_thinking l).
Proof.
  induction l as [|[now msg] l IH]; intros m; simpl.
  - now rewrite app_nil_r.
  - rewrite IH, step_self_ai_thoughts. unfold is_thinking at 2. simpl.
    destruct (is_kind "ai:thinking" msg); simpl.
    + now rewrite <- app_assoc.
    + now rewrite app_nil_r.
Qed.

Lemma fold_step_findings (l : list (Z * json)) :
  forall m,
    findings (fold_left (fun m ev => step_self (fst ev) (snd ev) m) l m)
    = findings m ++ map snd (filter is_finding l).
Proof.
  induction l as [|[now msg] l IH]; intros m; simpl.
  - now rewrite app_nil_r.
  - rewrite IH, step_self_findings. unfold is_finding at 2. simpl.
    destruct (is_kind "finding" msg); simpl.
    + now rewrite <- app_assoc.
    + now rewrite app_nil_r.
Qed.

Lemma last_plan_cons (ev : Z * json) (l : list (Z * json)) :
  last_plan (ev :: l)
  = match last_plan l with
    | Some e => Some e
    | None => if is_plan ev then Some (snd ev) else None
    end.
Proof.
  unfold last_plan. simpl. destruct (is_plan ev); simpl.
  - destruct (rev (map snd (filter is_plan l))); reflexivity.
  - destruct (hd_error (rev (map snd (filter is_plan l)))); reflexivity.
Qed.

Lemma fold_step_test_plan (l : list (Z * json)) :
  forall m,
    test_plan (fold_left (fun m ev => step_self (fst ev) (snd ev) m) l m)
    = match last_plan l with
      | Some e => plan_payload e
      | None => test_plan m
      end.
Proof.
  induction l as [|[now msg] l IH]; intros m; [reflexivity|].
  simpl. rewrite IH, last_plan_cons.
  destruct (last_plan l); [reflexivity|].
  rewrite step_self_test_plan. unfold is_plan. simpl.
  destruct (is_kind "test:plan" msg); reflexivity.
Qed.



(** ** The plan table *)

Lemma plan_rows_ok (rich : Rich) (plan : json) (steps : list json) :
  forall i rows0 w w' rows,
    plan_rows rich plan i steps rows0 w = (w', Ok rows) ->
    w' = w /\
    exists new,
      rows = rows0 ++ new /\
      Forall2 (fun s row => plan_row plan (fst s) (snd s) = Ok row)
        (enumerate i steps) new.
Proof.
  induction steps as [|step steps IH]; intros i rows0 w w' rows H.
  - simpl in H. unfold ret in H. inversion H; subst. split; [reflexivity|].
    exists []. split; [now rewrite app_nil_r | constructor].
  - simpl in H. unfold bind, lift, add_row in H.
    destruct (plan_row plan i step) as [row|e] eqn:Hr; [|discriminate].
    destruct (add_row_raises rich row); [discriminate|].
    unfold ret in H. apply IH in H. destruct H as (-> & new & -> & HF).
    split; [reflexivity|].
    exists (row :: new). split; [now rewrite <- app_assoc|].
    simpl. constructor; assumption.
Qed.

Lemma iter_truthy (v : json) (items : list json) :
  Py.iter v = Ok items ->
  Py.truthy v = match items with [] => false | _ => true end.
Proof.
  destruct v as [ | b | z | f | s | l | fs ]; simpl; try discriminate;
    intros H; inversion H; subst; clear H.
  - destruct s as [|c s]; [reflexivity|]. unfold Py.chars. simpl.
    destruct (Py.split_chars s) as [|ch more]; [reflexivity|].
    destruct (Py.continues ch); reflexivity.
  - reflexivity.
  - destruct fs; reflexivity.
Qed.

Lemma plan_row_is_record (plan : json) (i : Z) (step : json)
    (row : list renderable) :
  plan_row plan i step = Ok row -> exists fields, step = JObj fields.
Proof.
  destruct step; try discriminate. intros _. eexists. reflexivity.
Qed.

(** C7 as stated fails twice.  A plan whose [steps] is present but empty
    takes its rows from [recommendations]; and a plan event with no
    payload (hence no [steps] and no [recommendations]) renders nothing,
    not an empty table. *)
Lemma plan_table_counterexample :
  let fields := [("steps", JArr []);
                 ("recommendations", JArr [JObj [("tool", JStr "nmap")]])] in
  Py.lookup "steps" fields = Some (JArr []) /\
  log (fst (handle_message rich_quiet 1
              (JObj [("type", JStr "test:plan"); ("plan", JObj fields)])
              fresh_world))
  = [ConsolePrint
       (plan_table [[RStr [Fmt (JInt 1)]; RValue (JStr "nmap");
                     RValue (JStr "N/A"); RValue (JStr "N/A")]]);
     ConsolePrint
       (first_step_panel (JStr "nmap") (JStr "N/A") (JStr "Not specified"))] /\
  Py.lookup "plan" [("type", JStr "test:plan")] = None /\
  log (fst (handle_message rich_quiet 1 (JObj [("type", JStr "test:plan")])
              fresh_world))
  = [].
Proof. vm_compute. repeat split. Qed.

(** C7, amended.  [display_test_plan] renders nothing when the plan is
    falsy (absent, [None] or an empty record).  Otherwise, when it
    returns, it has printed one table whose rows are built, in order and
    numbered from 1, from the items of [plan.steps] if that is truthy
    (present and non-empty) and of [plan.recommendations] (default: no
    items) if not, followed by the first-step panel exactly when there is
    at least one item.  A non-empty plan with neither field renders the
    empty table without error when the console accepts it. *)
Theorem display_test_plan_renders (rich : Rich) (w : World) :
  (Py.truthy (test_plan (self w)) = false ->
   display_test_plan rich w = (w, Ok tt)) /\
  (forall w',
      Py.truthy (test_plan (self w)) = true ->
      display_test_plan rich w = (w', Ok tt) ->
      exists items rows,
        Py.iter (chosen_steps (test_plan (self w))) = Ok items /\
        Forall2 (fun s row =>
                   plan_row (test_plan (self w)) (fst s) (snd s) = Ok row)
          (enumerate 1 items) rows /\
        w' = {| self := self w;
                log := log w ++ ConsolePrint (plan_table rows) ::
                       match items with
                       | [] => []
                       | first_step :: _ =>
                           [ConsolePrint (first_step_panel_of first_step)]
                       end |}) /\
  (forall fields,
      test_plan (self w) = JObj fields -> fields <> [] ->
      Py.lookup "steps" fields = None ->
      Py.lookup "recommendations" fields = None ->
      print_raises rich (plan_table []) = None ->
      display_test_plan rich w = (with_print (plan_table []) w, Ok tt)).
Proof.
  split; [|split].
  - intros Hf. unfold display_test_plan, bind, get_self. now rewrite Hf.
  - intros w' Ht H. unfold display_test_plan, bind at 1, get_self in H.
    rewrite Ht in H. cbn [negb] in H.
    destruct (test_plan (self w)) as [ | b | z | f | s | l | fields ] eqn:Hp;
      try discriminate.
    unfold bind at 1, lift at 1 in H. cbn [Py.get] in H.
    assert (Hc : Py.or_else
                   match Py.lookup "steps" fields with
                   | Some v => v
                   | None => JArr []
                   end
                   (Ok match Py.lookup "recommendations" fields with
                       | Some v => v
                       | None => JArr []
                       end)
                 = Ok (chosen_steps (JObj fields))).
    { unfold Py.or_else, chosen_steps, field. cbn [Py.get].
      match goal with
      | |- context [Py.truthy ?x] => destruct (Py.truthy x)
      end; reflexivity. }
    unfold bind at 1, lift at 1 in H. rewrite Hc in H. clear Hc.
    set (steps := chosen_steps (JObj fields)) in *.
    unfold bind at 1, lift at 1 in H.
    destruct (Py.iter steps) as [items|e] eqn:Hi; [|discriminate].
    unfold bind at 1 in H.
    destruct (plan_rows rich (JObj fields) 1 items [] w) as [w1 [rows|e]] eqn:Hr;
      [|discriminate].
    apply plan_rows_ok in Hr. destruct Hr as (-> & new & -> & HF).
    cbn [app] in H.
    unfold bind at 1, console_print at 1 in H.
    destruct (print_raises rich (plan_table new)); [discriminate|].
    unfold emit at 1 in H.
    rewrite (iter_truthy steps items Hi) in H.
    exists items, new. split; [reflexivity|]. split; [exact HF|].
    destruct items as [|first_step rest].
    + unfold ret in H. inversion H. reflexivity.
    + simpl in HF. inversion HF as [|s0 row0 l0 l0' Hrow HF']; subst.
      cbn [fst snd] in Hrow.
      destruct (plan_row_is_record _ _ _ _ Hrow) as (ffields & ->).
      destruct steps as [ | b | z | f | s | l | fs ]; try discriminate.
      * simpl in Hi. unfold Py.chars in Hi.
        destruct (Py.split_chars s); discriminate.
      * simpl in Hi. inversion Hi; subst l.
        unfold bind, lift, get, console_print in H. simpl in H.
        change (first_step_panel _ _ _)
          with (first_step_panel_of (JObj ffields)) in H.
        destruct (print_raises rich (first_step_panel_of (JObj ffields)));
          [discriminate|].
        unfold emit in H. cbn [self log] in H. inversion H.
        now rewrite <- app_assoc.
  - intros fields Hp Hne Hs Hr Hpr.
    unfold display_test_plan, bind, get_self, lift, console_print.
    rewrite Hp. destruct fields as [|f0 fields']; [congruence|].
    cbn [Py.truthy negb Py.get]. rewrite Hs, Hr. simpl. rewrite Hpr.
    reflexivity.
Qed.

Lemma display_test_plan_renders_witness :
  let w := {| self := set_test_plan (JObj [("target", JStr "a.example")])
                        (self fresh_world);
              log := [] |} in
  display_test_plan rich_quiet w = (with_print (plan_table []) w, Ok tt).
Proof.
  intros w.
  apply (proj2 (proj2 (display_test_plan_renders rich_quiet w))
           [("target", JStr "a.example")]); try reflexivity.
  discriminate.
Defined.

(** ** Files are written by the summary only *)

Ltac keeps_at :=
  match goal with
  | |- ?obs (fst (?c ?w)) = ?obs ?w =>
      cut (keeps obs c); [ intros Hk; exact (Hk w) | ]
  end.

Lemma handle_message_keeps_files (rich : Rich) (now : Z) (msg : json) :
  is_kind "workflow:complete" msg = false ->
  keeps files_written (handle_message rich now msg).
Proof.
  intros H w.
  destruct msg as [ | b | z | f | s | items | fields ]; try reflexivity.
  rewrite handle_message_dispatch. cbv zeta. simpl in H. rewrite H.
  unfold display_ai_thought.
  repeat match goal with
         | |- context [if Py.eq_str ?v ?k then _ else _] =>
             destruct (Py.eq_str v k)
         end; keeps_at; keeps.
Qed.

Lemma receive_one_keeps_files (rich : Rich) (now : Z) (r : recv) :
  is_complete_frame r = false ->
  keeps files_written (receive_one rich now r).
Proof.
  intros H. unfold receive_one.
  destruct r as [[msg|raw]|e]; simpl in *.
  - intros w. apply handle_message_keeps_files. exact H.
  - intros w. reflexivity.
  - intros w. reflexivity.
Qed.

Lemma listen_keeps_files (rich : Rich) (script : list (Z * recv)) :
  no_completion script = true -> keeps files_written (listen rich script).
Proof.
  induction script as [|[now r] rest IH]; intros H w; [reflexivity|].
  simpl in H. apply andb_prop in H. destruct H as [Hr Hrest].
  apply negb_true_iff in Hr.
  pose proof (receive_one_keeps_files rich now r Hr w) as H1.
  simpl. destruct (receive_one rich now r w) as [w1 [b|e]]; simpl in H1.
  - rewrite IH by assumption. exact H1.
  - destruct e; simpl; try exact H1; rewrite IH by assumption; exact H1.
Qed.

Lemma listen_app_gen (rich : Rich) (pre post : list (Z * recv)) :
  forall w,
    listen rich (pre ++ post) w
    = match listen rich pre w with
      | (w', Ok Awaiting) => listen rich post w'
      | r => r
      end.
Proof.
  induction pre as [|[now r] pre IH]; intros w; [reflexivity|].
  simpl. destruct (receive_one rich now r w) as [w1 [b|e]].
  - apply IH.
  - destruct e; try reflexivity. apply IH.
Qed.

Lemma listen_interrupted_keeps_files (rich : Rich) (pre rest : list (Z * recv))
    (t : Z) :
  no_completion pre = true ->
  keeps files_written
    (listen rich (pre ++ (t, RecvRaises KeyboardInterrupt) :: rest)).
Proof.
  intros H w. rewrite listen_app_gen.
  pose proof (listen_keeps_files rich pre H w) as Hp.
  destruct (listen rich pre w) as [w1 [[|]|e]]; exact Hp.
Qed.

Lemma send_test_request_keeps_files (rich : Rich) (now : Z)
    (response : result json) (target description scope : string) :
  keeps files_written
    (send_test_request rich now response target description scope).
Proof. unfold send_test_request. keeps. Qed.

Lemma monitor_websocket_keeps_files (rich : Rich) (connect : option exn)
    (script : list (Z * recv)) :
  keeps files_written (listen rich script) ->
  keeps files_written (monitor_websocket rich connect script).
Proof. intros H. unfold monitor_websocket. keeps. Qed.

Lemma report_errors_keeps_files (rich : Rich) (results : list (result json)) :
  keeps files_written (report_errors rich results).
Proof. induction results as [|[v|e] rest IH]; simpl; keeps. Qed.

Lemma run_tasks_keeps_files (rich : Rich) (args : Args) (env : Env) :
  keeps files_written (listen rich (script env)) ->
  keeps files_written (run_tasks rich args env).
Proof.
  intros H w. unfold run_tasks.
  pose proof (send_test_request_keeps_files rich (t_send env) (response env)
                (target args) (description args) (scope args) w) as H1.
  destruct (send_test_request _ _ _ _ _ _ w) as [w1 r1]. simpl in H1.
  pose proof (monitor_websocket_keeps_files rich (connect env) (script env)
                H w1) as H2.
  destruct (monitor_websocket _ _ _ w1) as [w2 r2]. simpl in H2.
  destruct r1 as [v|[]]; try exact H1;
    destruct r2 as [[|]|e2]; simpl; congruence.
Qed.

Lemma main_keeps_files (rich : Rich) (args : Args) (env : Env) :
  keeps files_written (listen rich (script env)) ->
  keeps files_written (main rich args env).
Proof.
  intros H. unfold main. keeps.
  - now apply run_tasks_keeps_files.
  - apply report_errors_keeps_files.
Qed.

Lemma run_keeps_files (rich : Rich) (args : Args) (env : Env) :
  keeps files_written (listen rich (script env)) ->
  files_written (fst (run rich args env)) = [].
Proof.
  intros H. unfold run.
  pose proof (main_keeps_files rich args env H (initial_world args env)) as Hm.
  destruct (main rich args env (initial_world args env)) as [w [[| |c]|e]];
    simpl in Hm; try exact Hm.
  destruct e; try exact Hm.
  pose proof (keeps_console_print files_written files_ignore_output rich
                (RStr [Lit nl; Lit "[yellow]Exiting...[/yellow]"]) w) as Hp.
  destruct (console_print rich _ w) as [w' [u|e']]; simpl in *;
    rewrite Hp, Hm; reflexivity.
Qed.

(** ** Cancellation and the exit code *)

(** C3 as stated fails: when the operator interrupts the first wait the
    process exits with code 0 and no summary artifact has been written. *)
Lemma cancellation_counterexample :
  files_written (fst (run rich_quiet default_args cancelled_at_once)) = [] /\
  snd (run rich_quiet default_args cancelled_at_once) = Exited 0 /\
  ~ (exists name content,
        In (FileWrite name content)
           (log (fst (run rich_quiet default_args cancelled_at_once)))).
Proof.
  split; [reflexivity|]. split; [reflexivity|].
  intros (name & content & H). vm_compute in H.
  repeat (destruct H as [H|H]; [discriminate H|]). exact H.
Qed.

(** C3, amended.  Cancellation does not invoke finalization: when the
    operator interrupts a wait of the receive loop and no
    [workflow:complete] event was handled before (in particular when no
    event arrived at all), the run ends without any summary artifact
    written, whatever frames were still to come. *)
Theorem cancellation_writes_no_summary (rich : Rich) (args : Args) (env : Env)
    (pre rest : list (Z * recv)) (t : Z) :
  script env = pre ++ (t, RecvRaises KeyboardInterrupt) :: rest ->
  no_completion pre = true ->
  files_written (fst (run rich args env)) = [].
Proof.
  intros Hs Hp. apply run_keeps_files. rewrite Hs.
  now apply listen_interrupted_keeps_files.
Qed.

Lemma cancellation_writes_no_summary_witness :
  files_written
    (fst (run rich_quiet default_args
            {| uuid := "id"; t_send := 100; response := Ok (JObj []);
               connect := None;
               script := [(150, RecvRaises TimeoutError);
                          (200, Message (WellFormed bare_finding))]
                         ++ (300, RecvRaises KeyboardInterrupt)
                         :: [(400, Message (WellFormed complete_event))];
               interrupt_reaches_main := true |}))
  = [].
Proof.
  apply (cancellation_writes_no_summary rich_quiet default_args _
           [(150, RecvRaises TimeoutError);
            (200, Message (WellFormed bare_finding))]
           [(400, Message (WellFormed complete_event))] 300);
    reflexivity.
Defined.


Lemma listen_ends (rich : Rich) (script : list (Z * recv)) :
  stops script = true ->
  forall w, snd (listen rich script w) <> Ok Awaiting.
Proof.
  induction script as [|[now r] rest IH]; intros H w; [discriminate|].
  unfold stops in H. cbn [existsb snd] in H.
  apply orb_prop in H. destruct H as [H|H].
  - destruct r as [[v|raw]|e]; try discriminate H.
    + simpl. discriminate.
    + destruct e; try discriminate H; simpl; discriminate.
  - simpl. destruct (receive_one rich now r w) as [w1 [b|e1]].
    + now apply IH.
    + destruct e1; simpl; try discriminate; now apply IH.
Qed.

Section PlainConsole.

Variable rich : Rich.
Hypothesis Hplain : prints_lines rich.

Lemma console_print_line (s : fstring) (w : World) :
  console_print rich (RStr s) w = (with_print (RStr s) w, Ok tt).
Proof.
  unfold console_print. destruct Hplain as [_ Hl]. rewrite Hl. reflexivity.
Qed.

Lemma monitor_websocket_refused (e : exn) (script : list (Z * recv))
    (w : World) :
  monitor_websocket rich (Some e) script w
  = if is_Exception e then (with_print (websocket_error_line e) w, Ok Done)
    else (w, Raise e).
Proof.
  unfold monitor_websocket, try_except. unfold bind at 1. unfold raise.
  cbv beta iota. destruct (is_Exception e); [|reflexivity].
  unfold bind, websocket_error_line. rewrite console_print_line. reflexivity.
Qed.

Lemma monitor_websocket_connected (script : list (Z * recv)) (w : World) :
  monitor_websocket rich None script w
  = match listen rich script (opened w) with
    | (w1, Raise e) =>
        if is_Exception e
        then (with_print (websocket_error_line e) w1, Ok Done)
        else (w1, Raise e)
    | r => r
    end.
Proof.
  rewrite monitor_websocket_opened by (destruct Hplain as [_ Hl]; apply Hl).
  unfold try_except.
  destruct (listen rich script (opened w)) as [w1 [st|e]]; [reflexivity|].
  destruct (is_Exception e); [|reflexivity].
  unfold bind, websocket_error_line. rewrite console_print_line. reflexivity.
Qed.

(** [monitor_websocket] returns, still waits, or is interrupted; it
    still waits only with the connection open and the loop waiting. *)
Lemma monitor_websocket_status (connect : option exn)
    (script : list (Z * recv)) (w : World) :
  let r := snd (monitor_websocket rich connect script w) in
  (r = Ok Done \/ r = Ok Awaiting \/ r = Raise KeyboardInterrupt) /\
  (r = Ok Awaiting ->
   connect = None /\ snd (listen rich script (opened w)) = Ok Awaiting).
Proof.
  cbv zeta. destruct connect as [e|].
  - rewrite monitor_websocket_refused.
    destruct e; cbn [is_Exception snd];
      (split; [auto | discriminate]).
  - rewrite monitor_websocket_connected.
    destruct (listen rich script (opened w)) as [w1 [[|]|e]]; cbn [snd].
    + split; [now left | discriminate].
    + split; [now right; left | now split].
    + destruct e; cbn [is_Exception snd];
        (split; [auto | discriminate]).
Qed.

Lemma report_errors_lines (results : list (result json)) :
  forall w, snd (report_errors rich results w) = Ok tt.
Proof.
  induction results as [|[v|e] rest IH]; intros w; simpl; trivial.
  unfold bind. destruct (is_Exception e).
  - rewrite console_print_line. apply IH.
  - simpl. apply IH.
Qed.

(** How a run stands, from what its two tasks did. *)
Lemma run_status (args : Args) (env : Env) :
  let s := send_test_request rich (t_send env) (response env)
             (target args) (description args) (scope args)
             (with_print banner (initial_world args env)) in
  snd (run rich args env)
  = match snd s with
    | Raise KeyboardInterrupt => Exited 0
    | _ =>
        match snd (monitor_websocket rich (connect env) (script env)
                     (fst s)) with
        | Ok Awaiting => Running
        | _ => Exited 0
        end
    end.
Proof.
  cbv zeta. unfold run, main. unfold bind at 1. unfold console_print at 1.
  destruct Hplain as [Hb _]. rewrite Hb. unfold emit at 1.
  change {| self := self (initial_world args env);
            log := log (initial_world args env) ++ [ConsolePrint banner] |}
    with (with_print banner (initial_world args env)).
  set (wb := with_print banner (initial_world args env)).
  unfold try_except, bind at 1, run_tasks.
  destruct (send_test_request rich (t_send env) (response env) (target args)
              (description args) (scope args) wb) as [w1 r1].
  cbn [fst snd].
  pose proof (monitor_websocket_status (connect env) (script env) w1) as Hm.
  cbv zeta in Hm. destruct Hm as [Hm _].
  destruct (monitor_websocket rich (connect env) (script env) w1)
    as [w2 r2]. cbn [snd] in Hm.
  destruct r1 as [v|e1]; [|destruct e1]; cbn [is_Exception];
    try (destruct Hm as [ -> | [ -> | -> ] ];
         cbn [gather is_Exception andb]);
    try reflexivity;
    try (destruct (interrupt_reaches_main env); unfold bind;
         rewrite ?console_print_line; reflexivity);
    (unfold bind;
     match goal with
     | |- context [report_errors rich ?l ?w] =>
         pose proof (report_errors_lines l w) as H;
         destruct (report_errors rich l w) as [w3 [[]|e3]];
         [reflexivity | discriminate H]
     end).
Qed.

End PlainConsole.



(** ** Well-typed events replay without an exception *)

Section Accepting.

Variable rich : Rich.
Hypothesis Hacc : accepting rich.

Lemma returns_ret {A} (a : A) : returns (ret a).
Proof. intros w. now exists w, a. Qed.

Lemma returns_bind {A B} (c : M A) (k : A -> M B) :
  returns c -> (forall a, returns (k a)) -> returns (bind c k).
Proof.
  intros Hc Hk w. unfold bind. destruct (Hc w) as (w1 & a & ->).
  apply Hk.
Qed.

Lemma returns_lift_bind {A B} (a : A) (k : A -> M B) :
  returns (k a) -> returns (bind (lift (Ok a)) k).
Proof. intros H w. apply H. Qed.

Lemma returns_modify_self (f : AITestMonitor -> AITestMonitor) :
  returns (modify_self f).
Proof. intros w. eexists _, tt. reflexivity. Qed.

Lemma returns_get_self : returns get_self.
Proof. intros w. eexists _, _. reflexivity. Qed.

Lemma returns_emit (e : effect) : returns (emit e).
Proof. intros w. eexists _, tt. reflexivity. Qed.

Lemma returns_console_print (r : renderable) : returns (console_print rich r).
Proof.
  unfold console_print. destruct Hacc as (_ & _ & Hp). rewrite Hp.
  apply returns_emit.
Qed.

Lemma returns_Text (t : json) (style : string) : returns (Text rich t style).
Proof.
  unfold Text. destruct Hacc as (Ht & _ & _). rewrite Ht. apply returns_ret.
Qed.

Lemma returns_add_row (rows : list (list renderable)) (row : list renderable) :
  returns (add_row rich rows row).
Proof.
  unfold add_row. destruct Hacc as (_ & Ha & _). rewrite Ha. apply returns_ret.
Qed.

Lemma returns_get_record (fields : list (string * json)) (k default : string)
    {B} (c : json -> M B) :
  (forall v, returns (c v)) -> returns (bind (get (JObj fields) k default) c).
Proof. intros H w. apply H. Qed.

Lemma returns_strategy_rows (sfields : list (string * json))
    (recs : list json) :
  forallb is_record recs = true ->
  forall rows, returns (strategy_rows rich (JObj sfields) recs rows).
Proof.
  induction recs as [|rec recs IH]; intros H rows; [apply returns_ret|].
  simpl in H. apply andb_prop in H. destruct H as [Hr Hrest].
  destruct rec; try discriminate. simpl.
  repeat (apply returns_get_record; intros ?).
  apply returns_bind; [apply returns_add_row|]. intros rows'. now apply IH.
Qed.

Lemma returns_display_strategy (msg : json) :
  is_record msg = true -> well_typed_strategy msg = true ->
  returns (display_strategy rich msg).
Proof.
  destruct msg as [ | | | | | | fields ]; try discriminate. intros _ H.
  unfold well_typed_strategy, field in H. cbn [Py.get] in H.
  unfold display_strategy. cbn [Py.get].
  apply returns_lift_bind.
  destruct (match Py.lookup "strategy" fields with
            | Some v => v
            | None => JObj []
            end) as [ | | | | | | sfields ]; try discriminate.
  apply returns_get_record; intros reasoning.
  cbn [Py.contains]. apply returns_lift_bind.
  destruct (Py.lookup "recommendations" sfields) as [recs|] eqn:Hr.
  - destruct recs as [ | | | | | recs | ]; try discriminate.
    apply returns_bind.
    + cbn [Py.getitem]. rewrite Hr. apply returns_lift_bind.
      cbn [Py.iter]. apply returns_lift_bind.
      now apply returns_strategy_rows.
    + intros rows. apply returns_bind; [apply returns_console_print|].
      intros _. apply returns_console_print.
  - apply returns_bind; [apply returns_ret|].
    intros rows. apply returns_bind; [apply returns_console_print|].
    intros _. apply returns_console_print.
Qed.

Lemma returns_display_classification (msg : json) :
  is_record msg = true ->
  is_number (field msg "confidence" (JInt 0)) = true ->
  Py.fits_float (field msg "confidence" (JInt 0)) = true ->
  returns (display_classification rich msg).
Proof.
  destruct msg as [ | | | | | | fields ]; try discriminate. intros _ H Hf.
  unfold field in H, Hf. cbn [Py.get] in H, Hf.
  unfold display_classification. cbn [Py.get].
  apply returns_get_record; intros intent. apply returns_lift_bind.
  destruct (match Py.lookup "confidence" fields with
            | Some v => v
            | None => JInt 0
            end); try discriminate; cbn [Py.format_percent];
    try rewrite Hf;
    apply returns_lift_bind; apply returns_console_print.
Qed.

Lemma returns_display_finding (msg : json) :
  is_record msg = true ->
  is_text (field msg "severity" (JStr "info")) = true ->
  returns (display_finding rich msg).
Proof.
  destruct msg as [ | | | | | | fields ]; try discriminate. intros _ H.
  unfold field in H. cbn [Py.get] in H.
  unfold display_finding, get. cbn [Py.get].
  apply returns_lift_bind.
  destruct (match Py.lookup "severity" fields with
            | Some v => v
            | None => JStr "info"
            end); try discriminate.
  repeat apply returns_lift_bind.
  unfold Py.table_get. cbn [Py.hashable negb Py.upper].
  repeat apply returns_lift_bind. apply returns_console_print.
Qed.

Lemma returns_display_summary (now : Z) : returns (display_summary rich now).
Proof.
  unfold display_summary.
  apply returns_bind; [apply returns_get_self|]. intros m.
  apply returns_bind; [apply returns_console_print|]. intros _.
  apply returns_bind; [apply returns_emit|]. intros _.
  apply returns_console_print.
Qed.

Lemma returns_display_ai_thought (now : Z) (ph content : json) :
  returns (display_ai_thought rich now ph content).
Proof.
  unfold display_ai_thought.
  apply returns_bind; [apply returns_modify_self|]. intros _.
  apply returns_bind; [apply returns_Text|]. intros t.
  apply returns_console_print.
Qed.

Lemma returns_plan_rows (pfields : list (string * json)) (items : list json) :
  forallb (well_typed_step (JObj pfields)) items = true ->
  forall i rows, returns (plan_rows rich (JObj pfields) i items rows).
Proof.
  induction items as [|step items IH]; intros H i rows; [apply returns_ret|].
  simpl in H. apply andb_prop in H. destruct H as [Hs Hrest].
  unfold well_typed_step in Hs. apply andb_prop in Hs. destruct Hs as [Hr Ht].
  destruct step as [ | | | | | | sfields ]; try discriminate.
  unfold field in Ht. cbn [Py.get] in Ht.
  simpl. unfold plan_row. cbn [Py.get rbind].
  destruct (match Py.lookup "target" sfields with
            | Some v => v
            | None => match Py.lookup "target" pfields with
                      | Some v => v
                      | None => JStr "N/A"
                      end
            end); try discriminate; cbn [Py.slice_to rbind];
    apply returns_lift_bind;
    (apply returns_bind; [apply returns_add_row|]); intros rows';
    now apply IH.
Qed.

Lemma returns_display_test_plan (plan : json) (w : World) :
  test_plan (self w) = plan ->
  negb (Py.truthy plan) ||
  (is_record plan &&
   match chosen_steps plan with
   | JArr items => forallb (well_typed_step plan) items
   | _ => false
   end) = true ->
  exists w' a, display_test_plan rich w = (w', Ok a).
Proof.
  intros Hp H. unfold display_test_plan, bind at 1, get_self. rewrite Hp.
  destruct (Py.truthy plan) eqn:Ht; cbn [negb orb] in *.
  2:{ eexists _, _. reflexivity. }
  apply andb_prop in H. destruct H as [Hr H].
  destruct plan as [ | | | | | | pfields ]; try discriminate.
  destruct (chosen_steps (JObj pfields)) as [ | | | | | items | ] eqn:Hc;
    try discriminate.
  assert (Hor : Py.or_else
                  match Py.lookup "steps" pfields with
                  | Some v => v
                  | None => JArr []
                  end
                  (Py.get (JObj pfields) "recommendations" (JArr []))
                = Ok (JArr items)).
  { rewrite <- Hc. unfold Py.or_else, chosen_steps, field. cbn [Py.get].
    match goal with
    | |- context [Py.truthy ?x] => destruct (Py.truthy x)
    end; reflexivity. }
  cbn [Py.get]. unfold bind at 1, lift at 1.
  unfold bind at 1, lift at 1. cbn [Py.get] in Hor. rewrite Hor.
  unfold bind at 1, lift at 1. cbn [Py.iter].
  unfold bind at 1.
  destruct (returns_plan_rows pfields items H 1 [] w) as (w1 & rows & ->).
  unfold bind at 1.
  destruct (returns_console_print (plan_table rows) w1) as (w2 & [] & ->).
  destruct items as [|first_step rest]; cbn [Py.truthy].
  - eexists _, _. reflexivity.
  - simpl in H. apply andb_prop in H. destruct H as [Hs _].
    unfold well_typed_step in Hs. apply andb_prop in Hs. destruct Hs as [Hs _].
    destruct first_step as [ | | | | | | sfields ]; try discriminate.
    cbn [Py.first]. unfold bind, lift, get. cbn [Py.get].
    apply returns_console_print.
Qed.

Lemma handle_message_returns (now : Z) (msg : json) :
  well_typed msg = true -> returns (handle_message rich now msg).
Proof.
  intros H w.
  destruct msg as [ | | | | | | fields ]; try discriminate.
  rewrite handle_message_dispatch. cbv zeta. cbn [well_typed] in H.
  destruct (Py.eq_str (discriminator fields) "ai:thinking") eqn:H1.
  { unfold get, lift, bind at 1 2. cbn [Py.get].
    revert w. apply returns_bind; [apply returns_display_ai_thought|].
    intros _. apply returns_ret. }
  destruct (Py.eq_str (discriminator fields) "ai:strategy") eqn:H2.
  { revert w. apply returns_bind; [now apply returns_display_strategy|].
    intros _. apply returns_ret. }
  destruct (Py.eq_str (discriminator fields) "ai:classification") eqn:H3.
  { apply andb_prop in H. destruct H as [Hn Hf].
    revert w. apply returns_bind; [now apply returns_display_classification|].
    intros _. apply returns_ret. }
  destruct (Py.eq_str (discriminator fields) "test:plan") eqn:H4.
  { unfold lift, bind at 1. cbn [Py.get].
    unfold bind at 1 2, modify_self.
    unfold well_typed_plan in H. cbv zeta in H.
    match goal with
    | |- context [display_test_plan rich ?w1] =>
        destruct (returns_display_test_plan
                    (field (JObj fields) "plan" (JObj [])) w1 eq_refl H)
          as (w2 & [] & Hd)
    end.
    unfold field in Hd. cbn [Py.get] in Hd. rewrite Hd.
    eexists _, _. reflexivity. }
  destruct (Py.eq_str (discriminator fields) "test:start") eqn:H5.
  { unfold get, lift, bind at 1. cbn [Py.get]. revert w.
    apply returns_bind; [apply returns_modify_self|]. intros _.
    apply returns_bind; [apply returns_get_self|]. intros m.
    apply returns_bind; [apply returns_console_print|]. intros _.
    apply returns_ret. }
  destruct (Py.eq_str (discriminator fields) "finding") eqn:H6.
  { revert w.
    apply returns_bind; [apply returns_modify_self|]. intros _.
    apply returns_bind; [now apply returns_display_finding|]. intros _.
    apply returns_ret. }
  destruct (Py.eq_str (discriminator fields) "workflow:complete") eqn:H7.
  { revert w. apply returns_bind; [apply returns_display_summary|].
    intros _. apply returns_ret. }
  eexists _, _. reflexivity.
Qed.

Lemma replay_returns (evs : list (Z * json)) :
  forallb (fun ev => well_typed (snd ev)) evs = true ->
  forall w, exists w', replay rich evs w = (w', Ok tt).
Proof.
  induction evs as [|[now msg] rest IH]; intros H w.
  - exists w. reflexivity.
  - simpl in H. apply andb_prop in H. destruct H as [Hm Hrest].
    simpl. unfold bind.
    destruct (handle_message_returns now msg Hm w) as (w1 & b & ->).
    now apply IH.
Qed.

End Accepting.

Lemma handled_prefix (rich : Rich) (evs : list (Z * json)) :
  forall w, exists rest, evs = handled rich evs w ++ rest.
Proof.
  induction evs as [|[now msg] evs IH]; intros w.
  - exists []. reflexivity.
  - simpl. destruct (handle_message rich now msg w) as [w1 [b|e]].
    + destruct (IH w1) as (rest & Hr). exists rest. now rewrite <- Hr.
    + exists evs. reflexivity.
Qed.

(** C4 as stated fails.  A finding whose [severity] is a number is
    logged, and then [display_finding] raises, which ends the replay: the
    thought that follows is never logged, so [ai_thoughts] holds no entry
    for one thinking event, on a console that accepts everything.  The
    same happens after a finding of severity [high] on a console that
    knows no colour [orange]. *)
Lemma replay_counts_counterexample :
  snd (replay rich_quiet numbered_severity fresh_world) = Raise AttributeError /\
  List.length
    (ai_thoughts (self (fst (replay rich_quiet numbered_severity fresh_world))))
  = 0%nat /\
  List.length (filter is_thinking numbered_severity) = 1%nat /\
  snd (replay rich_no_orange high_then_thought fresh_world) = Raise RichError /\
  List.length
    (ai_thoughts
       (self (fst (replay rich_no_orange high_then_thought fresh_world))))
  = 0%nat /\
  List.length (filter is_thinking high_then_thought) = 1%nat.
Proof. vm_compute. repeat split. Qed.

(** C4, amended.  After a replay, [ai_thoughts] has grown by one entry
    per [ai:thinking] event the replay got to and [findings] by one per
    [finding] event it got to, in arrival order: the entries appended are
    those of the thinking events, and the findings appended are the
    finding events themselves.  The replay gets to the events up to and
    including the first one [handle_message] raises on, which is still
    logged, and to every event when it raises on none. *)
Theorem replay_counts (rich : Rich) (evs : list (Z * json)) (w : World) :
  let reached := handled rich evs w in
  let m' := self (fst (replay rich evs w)) in
  ai_thoughts m'
  = ai_thoughts (self w) ++ map thought_of (filter is_thinking reached) /\
  findings m'
  = findings (self w) ++ map snd (filter is_finding reached) /\
  (List.length (ai_thoughts m')
   = List.length (ai_thoughts (self w))
     + List.length (filter is_thinking reached))%nat /\
  (List.length (findings m')
   = List.length (findings (self w))
     + List.length (filter is_finding reached))%nat /\
  (exists rest, evs = reached ++ rest) /\
  (forall w', replay rich evs w = (w', Ok tt) -> reached = evs).
Proof.
  cbv zeta.
  pose proof (replay_self rich evs w) as Hs.
  assert (Ht := fold_step_ai_thoughts (handled rich evs w) (self w)).
  assert (Hf := fold_step_findings (handled rich evs w) (self w)).
  rewrite <- Hs in Ht, Hf.
  split; [exact Ht|]. split; [exact Hf|].
  split; [rewrite Ht, length_app, length_map; reflexivity|].
  split; [rewrite Hf, length_app, length_map; reflexivity|].
  split; [apply handled_prefix|].
  intros w' Hr. apply handled_all. now rewrite Hr.
Qed.

Lemma replay_counts_witness :
  handled rich_quiet scenario fresh_world = scenario /\
  List.length
    (ai_thoughts (self (fst (replay rich_quiet scenario fresh_world))))
  = 1%nat /\
  List.length (findings (self (fst (replay rich_quiet scenario fresh_world))))
  = 1%nat.
Proof.
  destruct (replay_counts rich_quiet scenario fresh_world)
    as (_ & _ & Ht & Hf & _ & Hall).
  split; [|split].
  - apply (Hall (fst (replay rich_quiet scenario fresh_world))). reflexivity.
  - exact Ht.
  - exact Hf.
Defined.

(** * Further properties *)

(** ** The dispatcher *)

Lemma send_test_request_self (rich : Rich) (now : Z)
    (response : result json) (target description scope : string)
    (w : World) :
  self (fst (send_test_request rich now response target description scope w))
  = set_start_time (Some now) (self w).
Proof.
  unfold send_test_request.
  apply self_bind; [reflexivity | intros; keeps].
Qed.

Lemma send_test_request_world (rich : Rich) (now : Z)
    (response response' : result json) (target description scope : string)
    (w : World) :
  fst (send_test_request rich now response target description scope w)
  = fst (send_test_request rich now response' target description scope w)
  /\
  (snd (send_test_request rich now response target description scope w)
   = response /\
   snd (send_test_request rich now response' target description scope w)
   = response'
   \/
   snd (send_test_request rich now response target description scope w)
   = snd (send_test_request rich now response' target description scope w)).
Proof.
  unfold send_test_request.
  unfold bind at 1 3 5 7 9 11, modify_self.
  unfold bind at 1 3 5 7 9 11, get_self.
  unfold bind at 1 3 5 7 9 11, console_print. cbn [self log].
  match goal with |- context [print_raises rich ?p] =>
    destruct (print_raises rich p)
  end.
  - split; [reflexivity|]. right. reflexivity.
  - split; [reflexivity|]. left. split; reflexivity.
Qed.

(** X1. [send_test_request] records the start time first: afterwards the
    monitor is the one before with [start_time] set to the clock reading,
    whatever the console and the request do.  When the console accepts the
    panel, one request is issued to [backend_url/api/workflows/run] and
    the call yields what the request yields (its body, or the exception
    it raises); when it rejects the panel,
    the call raises and nothing is posted. *)
Theorem send_test_request_records_start (rich : Rich) (now : Z)
    (response : result json) (target description scope : string)
    (w : World) :
  let r := send_test_request rich now response target description scope w in
  self (fst r) = set_start_time (Some now) (self w) /\
  (print_raises rich (request_panel target scope description) = None ->
   snd r = response /\
   log (fst r)
   = log w ++ [ConsolePrint (request_panel target scope description);
               HttpPost (backend_url (self w) ++ "/api/workflows/run")%string
                 (request_data (self w) target description scope)]) /\
  (forall e,
      print_raises rich (request_panel target scope description) = Some e ->
      snd r = Raise e /\ log (fst r) = log w).
Proof.
  cbv zeta. unfold send_test_request.
  unfold bind at 1, modify_self at 1. unfold bind at 1, get_self at 1.
  unfold bind at 1, console_print.
  change (RPanel _ _ _ _) with (request_panel target scope description).
  cbn [self log].
  destruct (print_raises rich (request_panel target scope description))
    as [e|] eqn:Hp.
  - split; [reflexivity|]. split; [discriminate|].
    intros e' He'. inversion He'; subst. split; reflexivity.
  - split; [reflexivity|]. split; [|discriminate].
    intros _. split; [reflexivity|]. cbn. now rewrite <- app_assoc.
Qed.

Lemma send_test_request_records_start_witness :
  snd (send_test_request rich_quiet 100 (Raise ClientError)
         "https://sweetspotgov.com" "Test all access" "/*" fresh_world)
  = Raise ClientError /\
  log (fst (send_test_request rich_quiet 100 (Raise ClientError)
              "https://sweetspotgov.com" "Test all access" "/*" fresh_world))
  = log fresh_world
    ++ [ConsolePrint
          (request_panel "https://sweetspotgov.com" "/*" "Test all access");
        HttpPost (backend_url (self fresh_world) ++ "/api/workflows/run")%string
          (request_data (self fresh_world) "https://sweetspotgov.com"
             "Test all access" "/*")].
Proof.
  apply (send_test_request_records_start rich_quiet 100 (Raise ClientError)
           "https://sweetspotgov.com" "Test all access" "/*" fresh_world).
  reflexivity.
Defined.

(** ** Rounds of the receive loop *)

(** X2. Waits that time out are transparent: the receive loop does on a
    script what it does on the script without its timed-out rounds. *)
Theorem listen_skips_timeouts (rich : Rich) (script : list (Z * recv)) :
  forall w,
    listen rich script w
    = listen rich (filter (fun round => negb (is_timeout_round round)) script) w.
Proof.
  induction script as [|[now r] rest IH]; intros w; [reflexivity|].
  destruct r as [m|e].
  - cbn [filter is_timeout_round snd negb]. cbn [listen].
    destruct (receive_one rich now (Message m) w) as [w1 [b|e]].
    + apply IH.
    + destruct e; try reflexivity. apply IH.
  - destruct e; try (cbn [filter is_timeout_round snd negb listen];
                     reflexivity).
    cbn [filter is_timeout_round snd negb]. simpl. apply IH.
Qed.

(** X3. A round that raises anything but the two exceptions the inner
    [try] handles ends the loop there: [monitor_websocket] reports the
    exception once as a WebSocket error and returns, with the state the
    round left, and the rounds that follow are never run. *)
Theorem round_exception_ends_listening (rich : Rich)
    (pre rest : list (Z * recv)) (now : Z) (r : recv) (e : exn)
    (w w1 w2 : World) :
  print_raises rich connected_line = None ->
  print_raises rich (websocket_error_line e) = None ->
  listen rich pre (opened w) = (w1, Ok Awaiting) ->
  receive_one rich now r w1 = (w2, Raise e) ->
  is_Exception e = true -> e <> TimeoutError -> e <> ConnectionClosed ->
  monitor_websocket rich None (pre ++ (now, r) :: rest) w
  = (with_print (websocket_error_line e) w2, Ok Done).
Proof.
  intros Hc He Hpre Hr Hex Ht Hcl.
  rewrite (monitor_websocket_opened rich _ w Hc).
  unfold try_except. rewrite (listen_app rich pre _ (opened w) w1 Hpre).
  cbn [listen]. rewrite Hr.
  destruct e; try congruence; try discriminate;
    cbn [is_Exception]; unfold bind, console_print; rewrite He; reflexivity.
Qed.

Lemma round_exception_ends_listening_witness :
  monitor_websocket rich_quiet None
    ([(10, Message (WellFormed bare_finding))]
     ++ (20, RecvRaises OSError)
     :: [(30, Message (WellFormed complete_event))]) fresh_world
  = (with_print (websocket_error_line OSError)
       (fst (listen rich_quiet [(10, Message (WellFormed bare_finding))]
               (opened fresh_world))),
     Ok Done).
Proof.
  eapply (round_exception_ends_listening rich_quiet
            [(10, Message (WellFormed bare_finding))]
            [(30, Message (WellFormed complete_event))] 20
            (RecvRaises OSError) OSError fresh_world);
    try reflexivity; discriminate.
Defined.

(** X4. When the remote end closes the connection the loop ends normally:
    [monitor_websocket] returns with the state accumulated so far, prints
    no error, and never runs the rounds that follow. *)
Theorem connection_closed_ends_normally (rich : Rich)
    (pre rest : list (Z * recv)) (now : Z) (w w1 : World) :
  print_raises rich connected_line = None ->
  listen rich pre (opened w) = (w1, Ok Awaiting) ->
  monitor_websocket rich None
    (pre ++ (now, RecvRaises ConnectionClosed) :: rest) w
  = (w1, Ok Done).
Proof.
  intros Hc Hpre.
  rewrite (monitor_websocket_opened rich _ w Hc).
  unfold try_except. rewrite (listen_app rich pre _ (opened w) w1 Hpre).
  reflexivity.
Qed.

Lemma connection_closed_ends_normally_witness :
  monitor_websocket rich_quiet None
    ([(10, Message (WellFormed bare_finding))]
     ++ (20, RecvRaises ConnectionClosed)
     :: [(30, Message (WellFormed bare_finding))]) fresh_world
  = (fst (listen rich_quiet [(10, Message (WellFormed bare_finding))]
            (opened fresh_world)),
     Ok Done).
Proof.
  eapply (connection_closed_ends_normally rich_quiet
            [(10, Message (WellFormed bare_finding))]
            [(30, Message (WellFormed bare_finding))] 20 fresh_world);
    reflexivity.
Defined.

(** X5. When the connection cannot be opened, nothing is subscribed and
    no round is run: [monitor_websocket] prints the error and returns,
    the monitor as it was. *)
Theorem connect_failure_reported (rich : Rich) (e : exn)
    (script : list (Z * recv)) (w : World) :
  is_Exception e = true ->
  print_raises rich (websocket_error_line e) = None ->
  monitor_websocket rich (Some e) script w
  = (with_print (websocket_error_line e) w, Ok Done).
Proof.
  intros Hex He. unfold monitor_websocket, try_except, bind at 1, raise.
  rewrite Hex. unfold bind, console_print. rewrite He. reflexivity.
Qed.

Lemma connect_failure_reported_witness :
  monitor_websocket rich_quiet (Some OSError)
    [(10, Message (WellFormed bare_finding))] fresh_world
  = (with_print (websocket_error_line OSError) fresh_world, Ok Done).
Proof.
  apply (connect_failure_reported rich_quiet OSError); reflexivity.
Defined.

(** X6. A frame that decodes to something that is not a record (a list,
    a string, a number, [null]) makes [handle_message] raise
    [AttributeError] before anything is changed or printed, and the
    receive loop ends with it. *)
Theorem non_record_frame_ends_listening (rich : Rich) (now : Z) (v : json)
    (rest : list (Z * recv)) (w : World) :
  is_record v = false ->
  handle_message rich now v w = (w, Raise AttributeError) /\
  listen rich ((now, Message (WellFormed v)) :: rest) w
  = (w, Raise AttributeError).
Proof.
  intros H. destruct v; try discriminate; split; reflexivity.
Qed.

Lemma non_record_frame_ends_listening_witness :
  listen rich_quiet
    [(10, Message (WellFormed (JArr [bare_finding])));
     (20, Message (WellFormed bare_finding))] fresh_world
  = (fresh_world, Raise AttributeError).
Proof.
  apply (non_record_frame_ends_listening rich_quiet 10 (JArr [bare_finding])
           [(20, Message (WellFormed bare_finding))] fresh_world).
  reflexivity.
Defined.

(** ** What a message changes *)

Lemma step_self_current_phase (now : Z) (msg : json) (m : AITestMonitor) :
  current_phase (step_self now msg m)
  = if is_kind "test:start" msg
    then [Lit "Running: "; Fmt (field msg "test" (JStr "Unknown"))]
    else current_phase m.
Proof.
  unfold step_self.
  destruct (is_kind "ai:thinking" msg) eqn:H1.
  { other_kind H1. reflexivity. }
  destruct (is_kind "test:plan" msg) eqn:H2.
  { other_kind H2. reflexivity. }
  destruct (is_kind "test:start" msg); [reflexivity|].
  destruct (is_kind "finding" msg); reflexivity.
Qed.

(** X7. What [handle_message] records is recorded before it is shown:
    whether the call returns or raises, afterwards the thought of a
    thinking event has been appended, the payload of a plan event is the
    plan, the phase of a test-start event is [Running: <test>] (the test
    defaulting to [Unknown]) and a finding event has been appended; each
    of the four fields is as before for every other message. *)
Theorem handle_message_records (rich : Rich) (now : Z) (msg : json)
    (w : World) :
  let m := self w in
  let m' := self (fst (handle_message rich now msg w)) in
  ai_thoughts m'
  = ai_thoughts m
    ++ (if is_kind "ai:thinking" msg then [thought_of (now, msg)] else []) /\
  test_plan m'
  = (if is_kind "test:plan" msg then plan_payload msg else test_plan m) /\
  current_phase m'
  = (if is_kind "test:start" msg
     then [Lit "Running: "; Fmt (field msg "test" (JStr "Unknown"))]
     else current_phase m) /\
  findings m'
  = findings m ++ (if is_kind "finding" msg then [msg] else []).
Proof.
  cbv zeta. rewrite handle_message_self.
  repeat split.
  - apply step_self_ai_thoughts.
  - apply step_self_test_plan.
  - apply step_self_current_phase.
  - apply step_self_findings.
Qed.

Lemma step_self_identity (now : Z) (msg : json) (m : AITestMonitor) :
  backend_url (step_self now msg m) = backend_url m /\
  ws_url (step_self now msg m) = ws_url m /\
  workflow_id (step_self now msg m) = workflow_id m /\
  start_time (step_self now msg m) = start_time m.
Proof.
  unfold step_self.
  destruct (is_kind "ai:thinking" msg); [repeat split|].
  destruct (is_kind "test:plan" msg); [repeat split|].
  destruct (is_kind "test:start" msg); [repeat split|].
  destruct (is_kind "finding" msg); repeat split.
Qed.

(** X8. [handle_message] never touches the identity of the session (the
    two urls, the workflow id, the start time), and a message of any
    other kind than thinking, plan, test-start and finding (a strategy, a
    classification, the completion, an unknown kind, something that is
    not a record) leaves the whole monitor object as it was, whether the
    call returns or raises. *)
Theorem handle_message_frame (rich : Rich) (now : Z) (msg : json)
    (w : World) :
  let m := self w in
  let m' := self (fst (handle_message rich now msg w)) in
  (backend_url m' = backend_url m /\ ws_url m' = ws_url m /\
   workflow_id m' = workflow_id m /\ start_time m' = start_time m) /\
  (is_kind "ai:thinking" msg = false -> is_kind "test:plan" msg = false ->
   is_kind "test:start" msg = false -> is_kind "finding" msg = false ->
   m' = m).
Proof.
  cbv zeta. rewrite handle_message_self. split.
  - apply step_self_identity.
  - intros H1 H2 H3 H4. unfold step_self. now rewrite H1, H2, H3, H4.
Qed.

Lemma handle_message_frame_witness :
  self (fst (handle_message rich_quiet 5
               (JObj [("type", JStr "ai:strategy"); ("strategy", JNull)])
               fresh_world))
  = self fresh_world.
Proof.
  apply (handle_message_frame rich_quiet 5
           (JObj [("type", JStr "ai:strategy"); ("strategy", JNull)])
           fresh_world); reflexivity.
Defined.

(** ** The logs only grow *)

Lemma extends_logs_refl (m : AITestMonitor) : extends_logs m m.
Proof.
  repeat split; exists []; now rewrite app_nil_r.
Qed.

Lemma extends_logs_trans (m1 m2 m3 : AITestMonitor) :
  extends_logs m1 m2 -> extends_logs m2 m3 -> extends_logs m1 m3.
Proof.
  intros (Hb & Hw & Hi & Hs & (t & Ht) & (f & Hf))
         (Hb' & Hw' & Hi' & Hs' & (t' & Ht') & (f' & Hf')).
  repeat split; try congruence.
  - exists (t ++ t'). now rewrite Ht', Ht, app_assoc.
  - exists (f ++ f'). now rewrite Hf', Hf, app_assoc.
Qed.

Lemma extends_logs_step (now : Z) (msg : json) (m : AITestMonitor) :
  extends_logs m (step_self now msg m).
Proof.
  destruct (step_self_identity now msg m) as (Hb & Hw & Hi & Hs).
  repeat split; trivial.
  - eexists. apply step_self_ai_thoughts.
  - eexists. apply step_self_findings.
Qed.

Section Evolves.

Variable R : AITestMonitor -> AITestMonitor -> Prop.
Hypothesis R_refl : forall m, R m m.
Hypothesis R_trans : forall m1 m2 m3, R m1 m2 -> R m2 m3 -> R m1 m3.
Hypothesis R_step : forall now msg m, R m (step_self now msg m).

Lemma evolves_keeps {A} (c : M A) : keeps self c -> evolves R c.
Proof. intros H w. rewrite H. apply R_refl. Qed.

Lemma evolves_bind {A B} (c : M A) (k : A -> M B) :
  evolves R c -> (forall a, evolves R (k a)) -> evolves R (bind c k).
Proof.
  intros Hc Hk w. unfold bind. specialize (Hc w).
  destruct (c w) as [w1 [a|e]]; simpl in *; [|exact Hc].
  eapply R_trans; [exact Hc | apply Hk].
Qed.

Lemma evolves_try_except {A} (c : M A) (catches : exn -> bool)
    (handler : exn -> M A) :
  evolves R c -> (forall e, evolves R (handler e)) ->
  evolves R (try_except c catches handler).
Proof.
  intros Hc Hh w. unfold try_except. specialize (Hc w).
  destruct (c w) as [w1 [a|e]]; simpl in *; [exact Hc|].
  destruct (catches e); simpl; [|exact Hc].
  eapply R_trans; [exact Hc | apply Hh].
Qed.

Lemma evolves_handle_message (rich : Rich) (now : Z) (msg : json) :
  evolves R (handle_message rich now msg).
Proof. intros w. rewrite handle_message_self. apply R_step. Qed.

Lemma evolves_receive_one (rich : Rich) (now : Z) (r : recv) :
  evolves R (receive_one rich now r).
Proof.
  unfold receive_one.
  apply evolves_bind;
    [apply evolves_keeps; unfold wait_for_recv; destruct r; keeps|].
  intros frame.
  apply evolves_bind; [apply evolves_keeps; keeps|]. intros msg.
  apply evolves_handle_message.
Qed.

Lemma evolves_listen (rich : Rich) (script : list (Z * recv)) :
  evolves R (listen rich script).
Proof.
  induction script as [|[now r] rest IH]; intros w; [apply R_refl|].
  simpl. pose proof (evolves_receive_one rich now r w) as H1.
  destruct (receive_one rich now r w) as [w1 [b|e]]; simpl in H1.
  - eapply R_trans; [exact H1 | apply IH].
  - destruct e; simpl; try exact H1.
    eapply R_trans; [exact H1 | apply IH].
Qed.

Lemma evolves_monitor_websocket (rich : Rich) (connect : option exn)
    (script : list (Z * recv)) :
  evolves R (monitor_websocket rich connect script).
Proof.
  unfold monitor_websocket.
  apply evolves_try_except.
  - apply evolves_bind; [apply evolves_keeps; destruct connect; keeps|].
    intros _. apply evolves_bind; [apply evolves_keeps; keeps|]. intros m.
    apply evolves_bind; [apply evolves_keeps; keeps|]. intros _.
    apply evolves_bind; [apply evolves_keeps; keeps|]. intros _.
    apply evolves_listen.
  - intros e. apply evolves_keeps. keeps.
Qed.

End Evolves.

(** X9. Through [monitor_websocket], however it ends (stream closed,
    error, interrupt, or still waiting), the two logs only grow: the
    thoughts and the findings the monitor had are still there, in place,
    with new entries after them at most, and the urls, the workflow id and
    the start time are untouched. *)
Theorem monitor_websocket_extends_logs (rich : Rich) (connect : option exn)
    (script : list (Z * recv)) (w : World) :
  extends_logs (self w)
    (self (fst (monitor_websocket rich connect script w))).
Proof.
  apply (evolves_monitor_websocket extends_logs extends_logs_refl
           extends_logs_trans extends_logs_step).
Qed.

(** ** Classification and strategy events *)

Lemma float_sized_fits (v : json) :
  float_sized v = true -> Py.fits_float v = true.
Proof.
  destruct v as [ | b | z | f | s | l | fs ]; trivial.
  cbn [float_sized Py.fits_float]. intros H.
  apply Z.ltb_lt in H. apply Z.ltb_lt.
  apply (Z.lt_trans _ (2 ^ 1023)); [exact H|].
  vm_compute. reflexivity.
Qed.



Lemma strategy_rows_ok (rich : Rich) (strategy : json) (recs : list json) :
  forall rows0 w w' rows,
    strategy_rows rich strategy recs rows0 w = (w', Ok rows) ->
    w' = w /\
    rows = rows0 ++ map (strategy_row strategy) recs /\
    forallb is_record recs = true.
Proof.
  induction recs as [|rec recs IH]; intros rows0 w w' rows H.
  - simpl in H. unfold ret in H. inversion H; subst.
    now rewrite app_nil_r.
  - simpl in H. unfold get, bind at 1, lift at 1 in H.
    destruct strategy as [ | | | | | | sfields ]; try discriminate.
    cbn [Py.get] in H.
    destruct rec as [ | | | | | | rfields ]; try discriminate.
    unfold bind, lift, add_row in H. cbn [Py.get] in H.
    match type of H with
    | context [add_row_raises rich ?row] =>
        destruct (add_row_raises rich row); [discriminate|]
    end.
    unfold ret in H. apply IH in H. destruct H as (-> & -> & Hr).
    split; [reflexivity|]. split; [|exact Hr].
    rewrite <- app_assoc. reflexivity.
Qed.

(** X11. When [display_strategy] returns it has printed, in this order,
    one table and the reasoning panel (the reasoning defaulting to [No
    reasoning provided]).  The table has one row per recommendation of
    the strategy, in order, each a record shown as its phase (default
    [N/A]), [tool: purpose] (defaults [Unknown] and the empty text) and
    its priority (default [medium]); it is empty when the strategy has no
    [recommendations].  It does return on a well-typed strategy event
    when the console accepts what it is given. *)
Theorem display_strategy_renders (rich : Rich)
    (fields : list (string * json)) (w : World) :
  let msg := JObj fields in
  let strategy := field msg "strategy" (JObj []) in
  (forall w',
      display_strategy rich msg w = (w', Ok tt) ->
      exists recs,
        strategy_items strategy = Ok recs /\
        forallb is_record recs = true /\
        w' = {| self := self w;
                log := log w
                       ++ [ConsolePrint
                             (strategy_table
                                (map (strategy_row strategy) recs));
                           ConsolePrint
                             (reasoning_panel
                                (field msg "reasoning"
                                   (JStr "No reasoning provided")))] |}) /\
  (accepting rich -> well_typed_strategy msg = true ->
   exists w', display_strategy rich msg w = (w', Ok tt)).
Proof.
  cbv zeta. split.
  - intros w' H. unfold display_strategy, get in H.
    unfold bind at 1, lift at 1 in H. cbn [Py.get] in H.
    unfold bind at 1, lift at 1 in H.
    unfold field. cbn [Py.get].
    set (strategy := match Py.lookup "strategy" fields with
                     | Some v => v
                     | None => JObj []
                     end) in *.
    set (reasoning := match Py.lookup "reasoning" fields with
                      | Some v => v
                      | None => JStr "No reasoning provided"
                      end) in *.
    unfold bind at 1, lift at 1 in H. unfold strategy_items.
    destruct (Py.contains "recommendations" strategy) as [has|e];
      [|discriminate]. cbn [rbind].
    unfold bind at 1 in H.
    assert (Htail : forall rows,
               (console_print rich (RTable "📋 AI Strategy" strategy_columns rows) ;;
                console_print rich
                  (RPanel (RValue reasoning) [Lit "💭 Reasoning"] "blue" false))
                 w = (w', Ok tt) ->
               w' = {| self := self w;
                       log := log w
                              ++ [ConsolePrint (strategy_table rows);
                                  ConsolePrint (reasoning_panel reasoning)] |}).
    { intros rows Hp. unfold bind, console_print in Hp.
      change (RTable _ _ _) with (strategy_table rows) in Hp.
      change (RPanel _ _ _ _) with (reasoning_panel reasoning) in Hp.
      destruct (print_raises rich (strategy_table rows)); [discriminate|].
      unfold emit at 1 in Hp. cbn [self log] in Hp.
      destruct (print_raises rich (reasoning_panel reasoning));
        [discriminate|].
      unfold emit in Hp. cbn [self log] in Hp. inversion Hp.
      now rewrite <- app_assoc. }
    destruct has.
    + unfold bind at 1, lift at 1 in H.
      destruct (Py.getitem strategy "recommendations") as [recs|e];
        [|discriminate]. cbn [rbind].
      unfold bind at 1, lift at 1 in H.
      destruct (Py.iter recs) as [items|e]; [|discriminate].
      destruct (strategy_rows rich strategy items [] w) as [w1 [rows|e]] eqn:Hs;
        [|discriminate].
      apply strategy_rows_ok in Hs. destruct Hs as (-> & -> & Hr).
      exists items. split; [reflexivity|]. split; [exact Hr|].
      now apply Htail.
    + exists []. split; [reflexivity|]. split; [reflexivity|].
      now apply Htail.
  - intros Hacc Hwt.
    destruct (returns_display_strategy rich Hacc (JObj fields) eq_refl Hwt w)
      as (w' & [] & H).
    now exists w'.
Qed.

Lemma display_strategy_renders_witness :
  let strategy := field sample_strategy "strategy" (JObj []) in
  exists recs,
    strategy_items strategy = Ok recs /\
    forallb is_record recs = true /\
    fst (display_strategy rich_quiet sample_strategy fresh_world)
    = {| self := self fresh_world;
         log := log fresh_world
                ++ [ConsolePrint
                      (strategy_table (map (strategy_row strategy) recs));
                    ConsolePrint
                      (reasoning_panel (JStr "No reasoning provided"))] |}.
Proof.
  exact (proj1 (display_strategy_renders rich_quiet
                  [("type", JStr "ai:strategy");
                   ("strategy",
                    JObj [("phase", JStr "recon");
                          ("recommendations",
                           JArr [JObj [("tool", JStr "nmap");
                                       ("purpose", JStr "port scan");
                                       ("priority", JStr "high")];
                                 JObj []])])]
                  fresh_world)
           (fst (display_strategy rich_quiet sample_strategy fresh_world))
           eq_refl).
Defined.

(** X12. A strategy event whose [strategy] is present but is [null], a
    boolean or a number makes [handle_message] raise [TypeError] (the
    [in] test does not apply to it) before anything is printed or
    changed, and the receive loop ends with it. *)
Theorem strategy_scalar_ends_listening (rich : Rich) (now : Z)
    (fields : list (string * json)) (v : json) (rest : list (Z * recv))
    (w : World) :
  Py.eq_str (discriminator fields) "ai:strategy" = true ->
  Py.lookup "strategy" fields = Some v ->
  is_scalar v = true ->
  handle_message rich now (JObj fields) w = (w, Raise TypeError) /\
  listen rich ((now, Message (WellFormed (JObj fields))) :: rest) w
  = (w, Raise TypeError).
Proof.
  intros Hk Hs Hv.
  assert (Hh : handle_message rich now (JObj fields) w = (w, Raise TypeError)).
  { rewrite handle_message_dispatch. cbv zeta.
    rewrite (eq_str_true _ _ Hk). cbn [Py.eq_str String.eqb Ascii.eqb Bool.eqb].
    simpl. unfold display_strategy, get, bind, lift. cbn [Py.get].
    rewrite Hs. destruct v; try discriminate; reflexivity. }
  split; [exact Hh|].
  simpl. unfold receive_one, bind, wait_for_recv, ret, lift. simpl.
  now rewrite Hh.
Qed.

Lemma strategy_scalar_ends_listening_witness :
  listen rich_quiet
    [(1, Message (WellFormed (JObj [("type", JStr "ai:strategy");
                                    ("strategy", JNull)])));
     (2, Message (WellFormed bare_finding))] fresh_world
  = (fresh_world, Raise TypeError).
Proof.
  apply (strategy_scalar_ends_listening rich_quiet 1
           [("type", JStr "ai:strategy"); ("strategy", JNull)] JNull
           [(2, Message (WellFormed bare_finding))] fresh_world);
    reflexivity.
Defined.

(** ** The target column *)

Lemma append_empty (s : string) : (s ++ EmptyString)%string = s.
Proof. induction s as [|c s IH]; [reflexivity|]. simpl. now rewrite IH. Qed.

Lemma len_app (a b : string) :
  Py.len (a ++ b)%string = (Py.len a + Py.len b)%nat.
Proof.
  induction a as [|c a IH]; [reflexivity|].
  simpl. destruct (Py.is_continuation c); simpl; now rewrite IH.
Qed.

Lemma len_starts (s : string) :
  s <> EmptyString -> Py.continues s = false -> (1 <= Py.len s)%nat.
Proof.
  destruct s as [|c s]; [congruence|]. simpl. intros _ ->. lia.
Qed.

(** The first [n] characters of a string: what is cut off begins with a
    character, and is not empty only when [n] characters were taken. *)
Lemma take_chars_split (s : string) :
  forall n,
    exists rest,
      s = (Py.take_chars n s ++ rest)%string /\
      Py.continues rest = false /\
      (Py.len (Py.take_chars n s) <= n)%nat /\
      (rest <> EmptyString -> Py.len (Py.take_chars n s) = n).
Proof.
  induction s as [|c s IH]; intros n.
  - exists EmptyString. repeat split; simpl; try lia. congruence.
  - simpl. destruct (Py.is_continuation c) eqn:Hc.
    + destruct (IH n) as (rest & Hs & Hr & Hl & Hn).
      exists rest. simpl. rewrite Hc. repeat split; trivial.
      now rewrite <- Hs.
    + destruct n as [|n].
      * exists (String c s). simpl. rewrite Hc. repeat split; trivial.
      * destruct (IH n) as (rest & Hs & Hr & Hl & Hn).
        exists rest. simpl. rewrite Hc. repeat split; trivial.
        -- now rewrite <- Hs.
        -- lia.
        -- intros Hne. now rewrite (Hn Hne).
Qed.

(** X13. In a row of the plan table the target shown is the step's
    [target], or else the plan's, or else [N/A], cut to 30 characters
    (characters, not bytes).  When that target is a string, the third
    cell is the string's beginning: the string is the cell followed by
    a rest that starts at a character, the cell has at most 30
    characters, exactly 30 when something was cut off, and it is the
    whole string when the string has 30 characters or fewer.  When the
    target is [null], a boolean or a number, no row is built: the slice
    raises [TypeError]. *)
Theorem plan_row_target_truncated (plan : json) (i : Z) (step : json) :
  let target := field step "target" (field plan "target" (JStr "N/A")) in
  (forall row s,
      plan_row plan i step = Ok row ->
      target = JStr s ->
      exists cell rest,
        nth_error row 2 = Some (RValue (JStr cell)) /\
        s = (cell ++ rest)%string /\
        Py.continues rest = false /\
        (Py.len cell <= 30)%nat /\
        (rest <> EmptyString -> Py.len cell = 30%nat) /\
        ((Py.len s <= 30)%nat -> cell = s)) /\
  (is_record step = true -> is_record plan = true ->
   is_scalar target = true ->
   plan_row plan i step = Raise TypeError).
Proof.
  cbv zeta. split.
  - intros row s Hr Ht.
    destruct step as [ | | | | | | sfields ]; try discriminate.
    destruct plan as [ | | | | | | pfields ]; try discriminate.
    unfold plan_row in Hr. unfold field in Ht. cbn [Py.get rbind] in *.
    rewrite Ht in Hr. cbn [Py.slice_to rbind] in Hr.
    destruct (take_chars_split s 30) as (rest & Hs & Hc & Hl & Hn).
    exists (Py.take_chars 30 s), rest.
    split; [inversion Hr; reflexivity|].
    repeat split; trivial.
    intros Hshort.
    destruct rest as [|c rest].
    + rewrite Hs at 2. now rewrite append_empty.
    + exfalso.
      assert (H1 : (1 <= Py.len (String c rest))%nat)
        by (apply len_starts; [discriminate | exact Hc]).
      assert (H30 : Py.len (Py.take_chars 30 s) = 30%nat)
        by (apply Hn; discriminate).
      rewrite Hs, len_app in Hshort. lia.
  - intros Hs Hp Ht.
    destruct step as [ | | | | | | sfields ]; try discriminate.
    destruct plan as [ | | | | | | pfields ]; try discriminate.
    unfold plan_row. unfold field in Ht. cbn [Py.get rbind] in *.
    destruct (match Py.lookup "target" sfields with
              | Some v => v
              | None => match Py.lookup "target" pfields with
                        | Some v => v
                        | None => JStr "N/A"
                        end
              end); try discriminate; reflexivity.
Qed.

Lemma plan_row_target_truncated_witness :
  exists cell rest,
    nth_error
      [RStr [Fmt (JInt 1)]; RValue (JStr "nmap");
       RValue (JStr "https://é-very-long-host-name.");
       RValue (JStr "N/A")] 2
    = Some (RValue (JStr cell)) /\
    "https://é-very-long-host-name.example.org/app" = (cell ++ rest)%string /\
    Py.continues rest = false /\
    (Py.len cell <= 30)%nat /\
    (rest <> EmptyString -> Py.len cell = 30%nat) /\
    ((Py.len "https://é-very-long-host-name.example.org/app" <= 30)%nat ->
     cell = "https://é-very-long-host-name.example.org/app").
Proof.
  apply (proj1 (plan_row_target_truncated
                  (JObj [("target",
                          JStr "https://é-very-long-host-name.example.org/app")])
                  1 (JObj [("tool", JStr "nmap")])));
    reflexivity.
Defined.

(** ** The summary after a replay *)

Lemma replay_app (rich : Rich) (evs evs' : list (Z * json)) :
  forall w,
    replay rich (evs ++ evs') w
    = match replay rich evs w with
      | (w1, Ok _) => replay rich evs' w1
      | (w1, Raise e) => (w1, Raise e)
      end.
Proof.
  induction evs as [|[now msg] rest IH]; intros w; [reflexivity|].
  simpl. unfold bind.
  destruct (handle_message rich now msg w) as [w1 [b|e]]; [apply IH|].
  reflexivity.
Qed.

Lemma fold_step_identity (l : list (Z * json)) :
  forall m,
    workflow_id (fold_left (fun m ev => step_self (fst ev) (snd ev) m) l m)
    = workflow_id m /\
    start_time (fold_left (fun m ev => step_self (fst ev) (snd ev) m) l m)
    = start_time m.
Proof.
  induction l as [|[now msg] l IH]; intros m; [split; reflexivity|].
  simpl. destruct (IH (step_self now msg m)) as [Hi Hs].
  destruct (step_self_identity now msg m) as (_ & _ & Hi' & Hs').
  split; congruence.
Qed.

Lemma handle_message_complete (rich : Rich) (now : Z)
    (fields : list (string * json)) (w : World) :
  Py.eq_str (discriminator fields) "workflow:complete" = true ->
  handle_message rich now (JObj fields) w
  = (display_summary rich now ;; ret (Some false)) w.
Proof.
  intros Hk. rewrite handle_message_dispatch. cbv zeta.
  rewrite (eq_str_true _ _ Hk). reflexivity.
Qed.

(** X14. The summary written at the completion holds what the events
    before it left.  When the events before a [workflow:complete] event
    were handled without an exception and the console accepts the summary
    panel, the completion writes one more file: the session's artifact,
    with the thoughts of the thinking events and the finding events
    appended to the logs the monitor had, in order, the payload of the
    last plan event as plan (the plan the monitor had if there was none),
    and the time elapsed from the start time to the completion as
    duration (zero if the start time is not set).  Well-typed events are
    handled without an exception on a console that renders what it is
    given, the completion included. *)
Theorem summary_reflects_replay (rich : Rich) (evs : list (Z * json))
    (now : Z) (fields : list (string * json)) (w : World) :
  Py.eq_str (discriminator fields) "workflow:complete" = true ->
  (forall w1,
      replay rich evs w = (w1, Ok tt) ->
      print_raises rich (summary_panel (self w1) (duration_at now (self w1)))
      = None ->
      files_written (fst (replay rich (evs ++ [(now, JObj fields)]) w))
      = files_written w1
        ++ [(output_file (self w),
             {| a_workflowId := workflow_id (self w);
                a_duration := duration_at now (self w);
                a_aiThoughts :=
                  ai_thoughts (self w)
                  ++ map thought_of (filter is_thinking evs);
                a_testPlan :=
                  match last_plan evs with
                  | Some e => plan_payload e
                  | None => test_plan (self w)
                  end;
                a_findings :=
                  findings (self w) ++ map snd (filter is_finding evs) |})]) /\
  (accepting rich ->
   forallb (fun ev => well_typed (snd ev)) evs = true ->
   exists w', replay rich (evs ++ [(now, JObj fields)]) w = (w', Ok tt)).
Proof.
  intros Hk. split.
  - intros w1 Hr Hpanel.
    pose proof (replay_self rich evs w) as Hs.
    rewrite (handled_all rich evs w) in Hs by now rewrite Hr.
    rewrite Hr in Hs. cbn [fst] in Hs.
    pose proof (fold_step_ai_thoughts evs (self w)) as Ht.
    pose proof (fold_step_findings evs (self w)) as Hf.
    pose proof (fold_step_test_plan evs (self w)) as Hp.
    destruct (fold_step_identity evs (self w)) as [Hi Hst].
    rewrite <- Hs in Ht, Hf, Hp, Hi, Hst. clear Hs.
    rewrite replay_app, Hr. cbn [replay]. unfold bind at 1.
    rewrite (handle_message_complete rich now fields w1 Hk).
    unfold display_summary, get_self, console_print, bind. cbv beta iota.
    rewrite Hpanel. unfold emit at 1 2. cbv beta iota. cbn [self log].
    assert (Hfile : files_written
                      {| self := self w1;
                         log := (log w1
                                 ++ [ConsolePrint
                                       (summary_panel (self w1)
                                          (duration_at now (self w1)))])
                                ++ [FileWrite (output_file (self w1))
                                      (summary_record (self w1)
                                         (duration_at now (self w1)))] |}
                    = files_written w1
                      ++ [(output_file (self w1),
                           summary_record (self w1)
                             (duration_at now (self w1)))]).
    { destruct w1 as [m1 l1]. cbn [self log].
      rewrite (files_written_app m1 m1), (files_written_app m1 m1).
      cbn [files_written flat_map log app]. now rewrite !app_nil_r. }
    match goal with
    | |- files_written (fst ?c) = _ =>
        assert (Hc : files_written (fst c)
                     = files_written w1
                       ++ [(output_file (self w1),
                            summary_record (self w1)
                              (duration_at now (self w1)))])
    end.
    { destruct w1 as [m1 l1]. cbn [self log] in *.
      destruct (print_raises rich (RStr _));
        unfold emit, raise, ret; cbn [fst self log].
      - exact Hfile.
      - rewrite (files_written_app m1 m1), Hfile.
        cbn [files_written flat_map log]. now rewrite app_nil_r. }
    rewrite Hc. unfold output_file, summary_record, duration_at.
    now rewrite Hi, Hst, Ht, Hf, Hp.
  - intros Hacc Hwt.
    apply (replay_returns rich Hacc).
    rewrite forallb_app, Hwt. cbn [forallb snd well_typed andb].
    rewrite (eq_str_true _ _ Hk). reflexivity.
Qed.

Lemma summary_reflects_replay_witness :
  files_written
    (fst (replay rich_quiet
            ([(1, JObj [("type", JStr "ai:thinking"); ("content", JStr "recon")]);
              (2, JObj [("type", JStr "finding"); ("severity", JStr "low")])]
             ++ [(9, complete_event)]) fresh_world))
  = [("ai-analysis-id.json",
      {| a_workflowId := "id";
         a_duration := 0;
         a_aiThoughts :=
           [{| timestamp := 1; phase := JStr "general";
               thought := JStr "recon" |}];
         a_testPlan := JNull;
         a_findings :=
           [JObj [("type", JStr "finding"); ("severity", JStr "low")]] |})].
Proof.
  apply (proj1 (summary_reflects_replay rich_quiet
                  [(1, JObj [("type", JStr "ai:thinking");
                             ("content", JStr "recon")]);
                   (2, JObj [("type", JStr "finding");
                             ("severity", JStr "low")])]
                  9 [("type", JStr "workflow:complete")] fresh_world
                  eq_refl)
           (fst (replay rich_quiet
                   [(1, JObj [("type", JStr "ai:thinking");
                              ("content", JStr "recon")]);
                    (2, JObj [("type", JStr "finding");
                              ("severity", JStr "low")])]
                   fresh_world)));
    reflexivity.
Defined.

(** ** A whole run, observed *)

Lemma obs_bind_left {T A B} (obs : World -> T) (c : M A) (k : A -> M B)
    (w : World) :
  (forall a, keeps obs (k a)) ->
  obs (fst (bind c k w)) = obs (fst (c w)).
Proof.
  intros Hk. unfold bind. destruct (c w) as [w1 [a|e]]; simpl; [|reflexivity].
  apply Hk.
Qed.

Lemma obs_try_left {T A} (obs : World -> T) (c : M A) (catches : exn -> bool)
    (handler : exn -> M A) (w : World) :
  (forall e, keeps obs (handler e)) ->
  obs (fst (try_except c catches handler w)) = obs (fst (c w)).
Proof.
  intros Hh. unfold try_except.
  destruct (c w) as [w1 [a|e]]; simpl; [reflexivity|].
  destruct (catches e); simpl; [apply Hh | reflexivity].
Qed.

Lemma run_tasks_world (rich : Rich) (args : Args) (env : Env) (w : World) :
  fst (run_tasks rich args env w)
  = let s := send_test_request rich (t_send env) (response env)
               (target args) (description args) (scope args) w in
    match snd s with
    | Raise KeyboardInterrupt => fst s
    | _ => fst (monitor_websocket rich (connect env) (script env) (fst s))
    end.
Proof.
  unfold run_tasks. cbv zeta.
  destruct (send_test_request _ _ _ _ _ _ w) as [w1 r1]. cbn [fst snd].
  destruct r1 as [v|[]]; try reflexivity;
    destruct (monitor_websocket _ _ _ w1) as [w2 [[|]|e2]]; reflexivity.
Qed.

Section Observed.

Context {T : Type} (obs : World -> T) (rich : Rich).
Hypothesis Hprint : forall r, keeps obs (console_print rich r).

Lemma report_errors_keeps (results : list (result json)) :
  keeps obs (report_errors rich results).
Proof. induction results as [|[v|e] rest IH]; simpl; keeps. Qed.

Lemma main_obs (args : Args) (env : Env) (w : World) :
  obs (fst (main rich args env w))
  = match print_raises rich banner with
    | Some _ => obs w
    | None => obs (fst (run_tasks rich args env (with_print banner w)))
    end.
Proof.
  unfold main. unfold bind at 1. unfold console_print at 1.
  destruct (print_raises rich banner); [reflexivity|].
  unfold emit at 1. fold (with_print banner w).
  rewrite obs_try_left by (intros e; destruct e; cbv beta iota; keeps).
  apply obs_bind_left. intros [l|]; keeps. apply report_errors_keeps.
Qed.

Lemma run_obs_main (args : Args) (env : Env) :
  obs (fst (run rich args env))
  = obs (fst (main rich args env (initial_world args env))).
Proof.
  unfold run.
  destruct (main rich args env (initial_world args env)) as [w [[| |c]|e]];
    try reflexivity.
  destruct e; try reflexivity.
  pose proof (Hprint (RStr [Lit nl; Lit "[yellow]Exiting...[/yellow]"]) w)
    as Hp.
  destruct (console_print rich _ w) as [w' [u|e']]; exact Hp.
Qed.

Lemma run_obs (args : Args) (env : Env) :
  obs (fst (run rich args env))
  = match print_raises rich banner with
    | Some _ => obs (initial_world args env)
    | None =>
        let s := send_test_request rich (t_send env) (response env)
                   (target args) (description args) (scope args)
                   (with_print banner (initial_world args env)) in
        match snd s with
        | Raise KeyboardInterrupt => obs (fst s)
        | _ => obs (fst (monitor_websocket rich (connect env) (script env)
                           (fst s)))
        end
    end.
Proof.
  rewrite run_obs_main, main_obs.
  destruct (print_raises rich banner); [reflexivity|].
  rewrite run_tasks_world. cbv zeta.
  destruct (snd (send_test_request _ _ _ _ _ _ _)) as [v|[]]; reflexivity.
Qed.

Lemma monitor_websocket_obs (connect : option exn)
    (script : list (Z * recv)) (w : World) :
  obs (fst (monitor_websocket rich connect script w))
  = match connect with
    | Some _ => obs w
    | None =>
        match print_raises rich connected_line with
        | Some _ => obs (sent w)
        | None => obs (fst (listen rich script (opened w)))
        end
    end.
Proof.
  unfold monitor_websocket.
  rewrite obs_try_left by (intros e; keeps).
  destruct connect as [e|]; [reflexivity|].
  unfold bind, ret, get_self, emit, console_print. cbn [self log].
  destruct (print_raises rich connected_line); reflexivity.
Qed.

End Observed.

(** ** The files of a run *)

Lemma display_summary_files (rich : Rich) (now : Z) (w : World) :
  files_written (fst (display_summary rich now w)) = files_written w \/
  files_written (fst (display_summary rich now w))
  = files_written w ++ [summary_file now (self w)].
Proof.
  remember (display_summary rich now w) as res eqn:E.
  unfold display_summary in E. unfold bind at 1 in E. unfold get_self in E.
  cbv beta iota in E. unfold bind at 1 in E. unfold console_print at 1 in E.
  destruct (print_raises rich (summary_panel _ _)).
  - left. subst res. reflexivity.
  - right. unfold emit at 1 in E. cbv beta iota in E.
    unfold bind at 1 in E. unfold emit at 1 in E. cbv beta iota in E.
    cbn [self log] in E. subst res.
    match goal with |- context [console_print rich ?r ?w1] =>
      rewrite (keeps_console_print files_written files_ignore_output rich r w1)
    end.
    destruct w as [m l]. cbn [self log].
    rewrite (files_written_app m m), (files_written_app m m). simpl.
    now rewrite app_nil_r.
Qed.

Lemma handle_message_files (rich : Rich) (now : Z) (msg : json) (w : World) :
  files_written (fst (handle_message rich now msg w)) = files_written w \/
  (is_kind "workflow:complete" msg = true /\
   files_written (fst (handle_message rich now msg w))
   = files_written w ++ [summary_file now (self w)]).
Proof.
  destruct (is_kind "workflow:complete" msg) eqn:Hk.
  - destruct (is_kind_true _ _ Hk) as (fields & -> & Hd).
    assert (He : Py.eq_str (discriminator fields) "workflow:complete" = true)
      by now rewrite Hd.
    rewrite (handle_message_complete rich now fields w He).
    rewrite obs_bind_left by (intros; keeps).
    destruct (display_summary_files rich now w) as [H|H]; [now left|].
    right. now split.
  - left. now apply handle_message_keeps_files.
Qed.

Lemma receive_one_files (rich : Rich) (now : Z) (r : recv) (w : World) :
  files_written (fst (receive_one rich now r w)) = files_written w \/
  (is_complete_frame r = true /\
   files_written (fst (receive_one rich now r w))
   = files_written w ++ [summary_file now (self w)]).
Proof.
  destruct r as [[msg|raw]|e]; try (left; reflexivity).
  exact (handle_message_files rich now msg w).
Qed.

Lemma same_session_refl (m : AITestMonitor) : same_session m m.
Proof. split; reflexivity. Qed.

Lemma same_session_trans (m1 m2 m3 : AITestMonitor) :
  same_session m1 m2 -> same_session m2 m3 -> same_session m1 m3.
Proof. intros [H1 H2] [H3 H4]. split; congruence. Qed.

Lemma same_session_step (now : Z) (msg : json) (m : AITestMonitor) :
  same_session m (step_self now msg m).
Proof.
  destruct (step_self_identity now msg m) as (_ & _ & Hi & Hs). now split.
Qed.

Lemma summary_file_ok (u : string) (t0 now : Z) (times : list Z)
    (m : AITestMonitor) :
  workflow_id m = u -> start_time m = Some t0 -> In now times ->
  artifact_ok u t0 times (summary_file now m).
Proof.
  intros Hu Hs Hn. unfold artifact_ok, summary_file, output_file,
    summary_record, duration_at. cbn [fst snd a_workflowId a_duration].
  rewrite Hu, Hs. repeat split. now exists now.
Qed.

Lemma listen_artifacts (rich : Rich) (u : string) (t0 : Z) (times : list Z)
    (script : list (Z * recv)) :
  (forall round, In round script -> In (fst round) times) ->
  forall w,
    workflow_id (self w) = u -> start_time (self w) = Some t0 ->
    Forall (artifact_ok u t0 times) (files_written w) ->
    Forall (artifact_ok u t0 times)
      (files_written (fst (listen rich script w))).
Proof.
  induction script as [|[now r] rest IH]; intros Ht w Hu Hs Hf; [exact Hf|].
  assert (H1 : Forall (artifact_ok u t0 times)
                 (files_written (fst (receive_one rich now r w)))).
  { destruct (receive_one_files rich now r w) as [H|[_ H]]; rewrite H.
    - exact Hf.
    - apply Forall_app. split; [exact Hf|]. constructor; [|constructor].
      apply summary_file_ok; trivial. apply (Ht (now, r)). now left. }
  destruct (evolves_receive_one same_session same_session_refl
              same_session_trans same_session_step rich now r w) as [Hu1 Hs1].
  assert (Hrest : forall round, In round rest -> In (fst round) times)
    by (intros round Hr; apply Ht; now right).
  simpl. destruct (receive_one rich now r w) as [w1 [b|e]];
    cbn [fst] in H1, Hu1, Hs1.
  - apply IH; trivial; congruence.
  - destruct e; try exact H1; apply IH; trivial; congruence.
Qed.

Lemma listen_file_count (rich : Rich) (script : list (Z * recv)) :
  forall w,
    (List.length (files_written (fst (listen rich script w)))
     <= List.length (files_written w) + count_completions script)%nat.
Proof.
  induction script as [|[now r] rest IH]; intros w.
  - simpl. unfold count_completions. simpl. lia.
  - assert (H1 : (List.length (files_written (fst (receive_one rich now r w)))
                  <= List.length (files_written w)
                     + (if is_complete_frame r then 1 else 0))%nat).
    { destruct (receive_one_files rich now r w) as [H|[Hc H]]; rewrite H.
      - lia.
      - rewrite Hc, length_app. simpl. lia. }
    assert (Hc : count_completions ((now, r) :: rest)
                 = ((if is_complete_frame r then 1 else 0)
                    + count_completions rest)%nat).
    { unfold count_completions. simpl.
      destruct (is_complete_frame r); reflexivity. }
    rewrite Hc. simpl.
    destruct (receive_one rich now r w) as [w1 [b|e]]; cbn [fst] in H1.
    + specialize (IH w1). lia.
    + destruct e; simpl; try lia; specialize (IH w1); lia.
Qed.

Lemma run_files (rich : Rich) (args : Args) (env : Env) :
  files_written (fst (run rich args env)) = [] \/
  exists w0,
    workflow_id (self w0) = uuid env /\
    start_time (self w0) = Some (t_send env) /\
    files_written w0 = [] /\
    files_written (fst (run rich args env))
    = files_written (fst (listen rich (script env) w0)).
Proof.
  rewrite (run_obs files_written rich
             (keeps_console_print files_written files_ignore_output rich)).
  destruct (print_raises rich banner); [now left|]. cbv zeta.
  set (wb := with_print banner (initial_world args env)).
  pose proof (send_test_request_keeps_files rich (t_send env) (response env)
                (target args) (description args) (scope args) wb) as Hf.
  pose proof (send_test_request_self rich (t_send env) (response env)
                (target args) (description args) (scope args) wb) as Hs.
  destruct (send_test_request _ _ _ _ _ _ wb) as [w1 r1].
  cbn [fst snd] in *.
  assert (Hw1 : files_written w1 = []) by (rewrite Hf; reflexivity).
  assert (Hmon :
            files_written
              (fst (monitor_websocket rich (connect env) (script env) w1)) = []
            \/ exists w0,
                workflow_id (self w0) = uuid env /\
                start_time (self w0) = Some (t_send env) /\
                files_written w0 = [] /\
                files_written
                  (fst (monitor_websocket rich (connect env) (script env) w1))
                = files_written (fst (listen rich (script env) w0))).
  { rewrite (monitor_websocket_obs files_written rich
               (keeps_console_print files_written files_ignore_output rich)).
    destruct (connect env); [now left|].
    destruct (print_raises rich connected_line).
    - left. unfold sent. rewrite <- Hw1.
      apply (files_ignore_output w1). discriminate.
    - right. exists (opened w1). unfold opened at 1 2. cbn [self].
      rewrite Hs. split; [reflexivity|]. split; [reflexivity|].
      split; [|reflexivity].
      unfold opened.
      rewrite (files_ignore_output
                 {| self := self w1;
                    log := log w1 ++ [WsSend (subscribe_frame (self w1))] |})
        by discriminate.
      cbn [self log].
      rewrite (files_ignore_output w1) by discriminate. exact Hw1. }
  destruct r1 as [v|[]]; try exact Hmon. now left.
Qed.

(** X15. Every file a run writes is the session's artifact: it is named
    [ai-analysis-<workflow id>.json] after the id the monitor was
    constructed with, and the record in it holds that id. *)
Theorem run_artifacts_named (rich : Rich) (args : Args) (env : Env)
    (name : string) (content : artifact) :
  In (name, content) (files_written (fst (run rich args env))) ->
  name = ("ai-analysis-" ++ uuid env ++ ".json")%string /\
  a_workflowId content = uuid env.
Proof.
  intros Hin.
  destruct (run_files rich args env) as [H|(w0 & Hu & Hs & Hf & H)];
    rewrite H in Hin; [destruct Hin|].
  assert (Hall : Forall (artifact_ok (uuid env) (t_send env)
                           (map fst (script env)))
                   (files_written (fst (listen rich (script env) w0)))).
  { apply listen_artifacts; trivial.
    - intros round Hr. now apply in_map.
    - rewrite Hf. constructor. }
  rewrite Forall_forall in Hall.
  destruct (Hall _ Hin) as (Hn & Hw & _). now split.
Qed.

Lemma run_artifacts_named_witness :
  let env := {| uuid := "id"; t_send := 100; response := Ok (JObj []);
                connect := None;
                script := [(250, Message (WellFormed complete_event))];
                interrupt_reaches_main := false |} in
  In ("ai-analysis-id.json",
      {| a_workflowId := "id"; a_duration := 150; a_aiThoughts := [];
         a_testPlan := JNull; a_findings := [] |})
     (files_written (fst (run rich_quiet default_args env))) /\
  "ai-analysis-id.json" = ("ai-analysis-" ++ uuid env ++ ".json")%string.
Proof.
  intros env.
  assert (Hin : In ("ai-analysis-id.json",
                    {| a_workflowId := "id"; a_duration := 150;
                       a_aiThoughts := []; a_testPlan := JNull;
                       a_findings := [] |})
                  (files_written (fst (run rich_quiet default_args env))))
    by (vm_compute; now left).
  split; [exact Hin|].
  exact (proj1 (run_artifacts_named rich_quiet default_args env _ _ Hin)).
Defined.

(** X16. The duration in every file a run writes is measured from the
    moment the request was sent to the moment the completion event was
    handled (the zero fallback for a start time never set does not occur
    in a run); it is not negative when no round of the script is clocked
    before the request was sent. *)
Theorem run_artifact_durations (rich : Rich) (args : Args) (env : Env)
    (name : string) (content : artifact) :
  In (name, content) (files_written (fst (run rich args env))) ->
  (exists round,
      In round (script env) /\
      a_duration content = fst round - t_send env) /\
  ((forall round, In round (script env) -> t_send env <= fst round) ->
   0 <= a_duration content).
Proof.
  intros Hin.
  assert (Hex : exists round,
             In round (script env) /\
             a_duration content = fst round - t_send env).
  { destruct (run_files rich args env) as [H|(w0 & Hu & Hs & Hf & H)];
      rewrite H in Hin; [destruct Hin|].
    assert (Hall : Forall (artifact_ok (uuid env) (t_send env)
                             (map fst (script env)))
                     (files_written (fst (listen rich (script env) w0)))).
    { apply listen_artifacts; trivial.
      - intros round Hr. now apply in_map.
      - rewrite Hf. constructor. }
    rewrite Forall_forall in Hall.
    destruct (Hall _ Hin) as (_ & _ & now & Hn & Hd).
    apply in_map_iff in Hn. destruct Hn as (round & <- & Hr).
    now exists round. }
  split; [exact Hex|].
  intros Hmono. destruct Hex as (round & Hr & ->).
  specialize (Hmono round Hr). lia.
Qed.

Lemma run_artifact_durations_witness :
  let env := {| uuid := "id"; t_send := 100; response := Ok (JObj []);
                connect := None;
                script := [(250, Message (WellFormed complete_event))];
                interrupt_reaches_main := false |} in
  exists round, In round (script env) /\ 150 = fst round - t_send env.
Proof.
  intros env.
  refine (proj1 (run_artifact_durations rich_quiet default_args env
                   "ai-analysis-id.json"
                   {| a_workflowId := "id"; a_duration := 150;
                      a_aiThoughts := []; a_testPlan := JNull;
                      a_findings := [] |} _)).
  vm_compute. now left.
Defined.

Lemma no_completion_count (script : list (Z * recv)) :
  no_completion script = true -> count_completions script = 0%nat.
Proof.
  unfold count_completions, no_completion.
  induction script as [|round rest IH]; intros Hn; [reflexivity|].
  simpl in *. apply andb_prop in Hn. destruct Hn as [Hr Hrest].
  apply negb_true_iff in Hr. rewrite Hr. now apply IH.
Qed.

(** X17. A run writes at most one file per [workflow:complete] event its
    script hands over, however it ends (stream closed, transport error,
    malformed frame, interrupt, still waiting); in particular a run that
    receives no completion event writes nothing. *)
Theorem run_file_count (rich : Rich) (args : Args) (env : Env) :
  (List.length (files_written (fst (run rich args env)))
   <= count_completions (script env))%nat /\
  (no_completion (script env) = true ->
   files_written (fst (run rich args env)) = []).
Proof.
  assert (Hle : (List.length (files_written (fst (run rich args env)))
                 <= count_completions (script env))%nat).
  { destruct (run_files rich args env) as [H|(w0 & _ & _ & Hf & H)];
      rewrite H; [simpl; lia|].
    pose proof (listen_file_count rich (script env) w0) as Hc.
    rewrite Hf in Hc. exact Hc. }
  split; [exact Hle|].
  intros Hn.
  rewrite (no_completion_count _ Hn) in Hle.
  destruct (files_written (fst (run rich args env))); [reflexivity|].
  simpl in Hle. lia.
Qed.

Lemma run_file_count_witness :
  files_written
    (fst (run rich_quiet default_args
            {| uuid := "id"; t_send := 100; response := Ok (JObj []);
               connect := None;
               script := [(150, Message (WellFormed bare_finding));
                          (200, RecvRaises ConnectionClosed)];
               interrupt_reaches_main := false |}))
  = [].
Proof.
  apply (run_file_count rich_quiet default_args). reflexivity.
Defined.

(** ** The network traffic of a run *)

Lemma network_app (s s' : AITestMonitor) (l l' : list effect) :
  network {| self := s'; log := l ++ l' |}
  = network {| self := s; log := l |} ++ network {| self := s; log := l' |}.
Proof. unfold network. simpl. apply filter_app. Qed.

Lemma keeps_network_print (rich : Rich) (r : renderable) :
  keeps network (console_print rich r).
Proof.
  unfold console_print. destruct (print_raises rich r); [apply keeps_raise|].
  intros [m l]. unfold emit. cbn [fst self log].
  rewrite (network_app m m). simpl. now rewrite app_nil_r.
Qed.

Lemma keeps_network_file (name : string) (content : artifact) :
  keeps network (emit (FileWrite name content)).
Proof.
  intros [m l]. unfold emit. cbn [fst self log].
  rewrite (network_app m m). simpl. now rewrite app_nil_r.
Qed.

Lemma network_ignores_self : ignores_self network.
Proof. intros w m. reflexivity. Qed.

#[local] Hint Resolve keeps_network_print keeps_network_file
  network_ignores_self : keeps.

Lemma keeps_network_strategy_rows (rich : Rich) (strategy : json)
    (recs : list json) :
  forall rows, keeps network (strategy_rows rich strategy recs rows).
Proof. induction recs as [|rec recs IH]; intros rows; simpl; keeps. Qed.

Lemma keeps_network_plan_rows (rich : Rich) (plan : json)
    (steps : list json) :
  forall i rows, keeps network (plan_rows rich plan i steps rows).
Proof. induction steps as [|step steps IH]; intros i rows; simpl; keeps. Qed.

#[local] Hint Resolve keeps_network_strategy_rows keeps_network_plan_rows
  : keeps.

Lemma keeps_network_handle_message (rich : Rich) (now : Z) (msg : json) :
  keeps network (handle_message rich now msg).
Proof.
  unfold handle_message, display_ai_thought, display_strategy,
    display_classification, display_test_plan, display_finding,
    display_summary.
  keeps.
Qed.

Lemma keeps_network_listen (rich : Rich) (script : list (Z * recv)) :
  keeps network (listen rich script).
Proof.
  induction script as [|[now r] rest IH]; intros w; [reflexivity|].
  assert (H1 : network (fst (receive_one rich now r w)) = network w).
  { destruct r as [[msg|raw]|e]; try reflexivity.
    apply (keeps_network_handle_message rich now msg w). }
  simpl. destruct (receive_one rich now r w) as [w1 [b|e]]; cbn [fst] in H1.
  - now rewrite IH.
  - destruct e; simpl; try exact H1; now rewrite IH.
Qed.

Lemma send_test_request_network (rich : Rich) (now : Z)
    (response : result json) (target description scope : string)
    (w : World) :
  network (fst (send_test_request rich now response target description
                  scope w))
  = network w
    ++ match print_raises rich (request_panel target scope description) with
       | Some _ => []
       | None =>
           [HttpPost (backend_url (self w) ++ "/api/workflows/run")%string
              (request_data (self w) target description scope)]
       end.
Proof.
  unfold send_test_request.
  unfold bind at 1, modify_self at 1. unfold bind at 1, get_self at 1.
  unfold bind at 1, console_print.
  change (RPanel _ _ _ _) with (request_panel target scope description).
  cbn [self log].
  destruct (print_raises rich (request_panel target scope description)).
  - cbn [fst raise]. now rewrite app_nil_r.
  - unfold bind, emit, lift. cbn [fst self log].
    destruct w as [m l]. cbn [self log].
    rewrite (network_app m), (network_app m m). simpl.
    now rewrite app_nil_r.
Qed.

(** X18. What a run puts on the network is at most one request followed
    by at most one frame: the POST to [<backend>/api/workflows/run] whose
    body carries the workflow id, the target, the scope and the
    description, and the subscription to the same workflow id.  Nothing
    is ever posted or sent again, whatever is received.  On a console that
    renders what it is given, with the connection opening, both go out,
    exactly once each. *)
Theorem run_network (rich : Rich) (args : Args) (env : Env) :
  let m := __init__ (backend args) (ws args) (uuid env) in
  let post :=
    HttpPost (backend args ++ "/api/workflows/run")%string
      (request_data m (target args) (description args) (scope args)) in
  let subscribe :=
    WsSend (JObj [("type", JStr "subscribe");
                  ("workflowId", JStr (uuid env))]) in
  (exists posted subscribed : bool,
      network (fst (run rich args env))
      = (if posted then [post] else [])
        ++ (if subscribed then [subscribe] else [])) /\
  ((forall r, print_raises rich r = None) ->
   response env <> Raise KeyboardInterrupt ->
   connect env = None ->
   network (fst (run rich args env)) = [post; subscribe]).
Proof.
  cbv zeta.
  pose proof (run_obs network rich (keeps_network_print rich) args env) as Hrun.
  set (wb := with_print banner (initial_world args env)) in *.
  pose proof (send_test_request_network rich (t_send env) (response env)
                (target args) (description args) (scope args) wb) as Hn.
  pose proof (send_test_request_self rich (t_send env) (response env)
                (target args) (description args) (scope args) wb) as Hs.
  assert (Hsnd : print_raises rich
                   (request_panel (target args) (scope args)
                      (description args)) = None ->
                 snd (send_test_request rich (t_send env) (response env)
                        (target args) (description args) (scope args) wb)
                 = response env).
  { intros Hp. unfold send_test_request.
    unfold bind at 1, modify_self at 1. unfold bind at 1, get_self at 1.
    unfold bind at 1, console_print.
    change (RPanel _ _ _ _)
      with (request_panel (target args) (scope args) (description args)).
    rewrite Hp. reflexivity. }
  cbv zeta in Hrun.
  destruct (send_test_request rich (t_send env) (response env) (target args)
              (description args) (scope args) wb) as [w1 r1].
  cbn [fst snd] in *.
  assert (Hmon : network
                   (fst (monitor_websocket rich (connect env) (script env) w1))
                 = network w1
                   ++ match connect env with
                      | Some _ => []
                      | None =>
                          [WsSend (JObj [("type", JStr "subscribe");
                                         ("workflowId", JStr (uuid env))])]
                      end).
  { rewrite (monitor_websocket_obs network rich (keeps_network_print rich)).
    destruct (connect env); [now rewrite app_nil_r|].
    assert (Hsent : network (sent w1)
                    = network w1
                      ++ [WsSend (JObj [("type", JStr "subscribe");
                                        ("workflowId", JStr (uuid env))])]).
    { unfold sent. destruct w1 as [m1 l1]. cbn [self log] in *.
      rewrite (network_app m1 m1). unfold subscribe_frame. rewrite Hs.
      reflexivity. }
    destruct (print_raises rich connected_line); [exact Hsent|].
    rewrite keeps_network_listen. unfold opened.
    destruct w1 as [m1 l1]. cbn [self log] in *.
    rewrite (network_app m1 m1). simpl. rewrite app_nil_r.
    unfold sent in Hsent. cbn [self log] in Hsent. exact Hsent. }
  assert (Hwb : network wb = []) by reflexivity.
  rewrite Hwb in Hn. cbn [app] in Hn.
  split.
  - destruct (print_raises rich banner).
    { exists false, false. rewrite Hrun. reflexivity. }
    destruct (print_raises rich (request_panel _ _ _)).
    + exists false.
      destruct r1 as [v|[]]; rewrite Hrun;
        try (rewrite Hmon, Hn;
             destruct (connect env);
             [exists false; reflexivity | exists true; reflexivity]).
      exists false. rewrite Hn. reflexivity.
    + exists true.
      destruct r1 as [v|[]]; rewrite Hrun;
        try (rewrite Hmon, Hn;
             destruct (connect env);
             [exists false; reflexivity | exists true; reflexivity]).
      exists false. rewrite Hn. reflexivity.
  - intros Hq Hr Hc. rewrite Hrun, (Hq banner).
    rewrite (Hq _) in Hn. rewrite (Hsnd (Hq _)) in *.
    destruct (response env) as [v|e]; [|destruct e; try congruence];
      rewrite Hmon, Hn, Hc; reflexivity.
Qed.

Lemma run_network_witness :
  network (fst (run rich_quiet default_args cancelled_at_once))
  = [HttpPost "http://localhost:8001/api/workflows/run"
       (request_data (__init__ "http://localhost:8001" "ws://localhost:8001"
                        "id")
          "https://sweetspotgov.com" "Test all access" "/*");
     WsSend (JObj [("type", JStr "subscribe"); ("workflowId", JStr "id")])].
Proof.
  apply (proj2 (run_network rich_quiet default_args cancelled_at_once)).
  - reflexivity.
  - discriminate.
  - reflexivity.
Defined.

(** ** The outcome of the request *)

Lemma run_obs_response {A : Type} (obs : World -> A) (rich : Rich)
    (Hprint : forall r, keeps obs (console_print rich r))
    (args : Args) (env : Env) (r r' : result json) :
  r <> Raise KeyboardInterrupt ->
  r' <> Raise KeyboardInterrupt ->
  obs (fst (run rich args (with_response r env)))
  = obs (fst (run rich args (with_response r' env))).
Proof.
  intros Hr Hr'. rewrite !(run_obs obs rich Hprint).
  unfold with_response, initial_world. cbn [uuid t_send response connect script].
  destruct (print_raises rich banner); [reflexivity|]. cbv zeta.
  destruct (send_test_request_world rich (t_send env) r r' (target args)
              (description args) (scope args)
              (with_print banner
                 {| self := __init__ (backend args) (ws args) (uuid env);
                    log := [] |}))
    as [Hw [[H1 H2]|H]].
  - rewrite H1, H2, Hw.
    destruct r as [v|[]], r' as [v'|[]]; try reflexivity; congruence.
  - rewrite H, Hw. reflexivity.
Qed.

(** X19. Whether the POST succeeds, and what it returns, changes nothing
    but the console: as long as the request is not interrupted, two runs
    that differ only in its outcome end with the same monitor, the same
    files written and the same network traffic.  The response is never
    read, and a failed request does not keep the monitor from
    subscribing. *)
Theorem request_outcome_ignored (rich : Rich) (args : Args) (env : Env)
    (r r' : result json) :
  r <> Raise KeyboardInterrupt ->
  r' <> Raise KeyboardInterrupt ->
  let w := fst (run rich args (with_response r env)) in
  let w' := fst (run rich args (with_response r' env)) in
  self w = self w' /\
  files_written w = files_written w' /\
  network w = network w'.
Proof.
  intros Hr Hr'. cbv zeta. repeat split.
  - apply (run_obs_response self rich
             (keeps_console_print self self_ignores_output rich)); assumption.
  - apply (run_obs_response files_written rich
             (keeps_console_print files_written files_ignore_output rich));
      assumption.
  - apply (run_obs_response network rich (keeps_network_print rich));
      assumption.
Qed.

Lemma request_outcome_ignored_witness :
  let env :=
    {| uuid := "id"; t_send := 100; response := Ok JNull; connect := None;
       script := map (fun e => (fst e, Message (WellFormed (snd e)))) scenario;
       interrupt_reaches_main := false |} in
  let w := fst (run rich_quiet default_args
                  (with_response (Ok (JObj [])) env)) in
  let w' := fst (run rich_quiet default_args
                   (with_response (Raise ClientError) env)) in
  self w = self w' /\
  files_written w = files_written w' /\
  network w = network w'.
Proof.
  cbv zeta. apply request_outcome_ignored; discriminate.
Defined.
